(** * Nepali (Bikram Sambat) date conversion: a shallow embedding

    The library [lib/nepali-date] converts between the Bikram Sambat
    calendar and the Gregorian calendar through a table of month lengths
    for the years 2000 to 2100 and one anchor, BS 2000/1/1 = 14 April 1943.

    Modelling choices.
    - The fields of a [NepaliDate] and the time value of a [Date] are
      JavaScript numbers that hold integers; they are integers ([Z]) here.
    - A [Date] is its time value in milliseconds.  The host's local time
      zone is a constant offset [LocalTZA] (milliseconds east of UTC), a
      variable of the section below, so every result holds for each such
      zone.
    - That first model leaves out two things a JavaScript host has: the
      Invalid Date, whose time value is [NaN], and a zone whose offset
      changes over the years (Asia/Kathmandu: +5:30 in 1943, +5:45 since
      1986).  The module [Js] embeds the validator and the converters once
      more with both.  [englishToNepali_number] shows that on every integer
      time value and in every zone [Js.englishToNepali] is the first model's
      [englishToNepali] at the offset the zone had on 14 April 1943, and
      [nepaliToEnglish_zone] gives [Js.nepaliToEnglish] on every valid date;
      the round trips between the two converters hold in the first model
      only, and the theorems on [Js] show where they fail.
    - [nepaliCalendarData] is an object keyed by year: a [gmap Z (list Z)].
      [monthData[i]] is [js_index], which is [None] (undefined) out of range.
    - A function that throws returns [Throw]; where the JavaScript would go
      on with [undefined] or [NaN], which integers cannot hold, the model
      returns [Wrong]. *)

From Stdlib Require Import ZArith String Ascii List Lia.
From stdpp Require Import base option list gmap pretty.
From Equations Require Import Equations.

Local Open Scope Z_scope.

(** ** Data model *)

Record NepaliDate := mkNepaliDate { year : Z; month : Z; day : Z }.

(** A [Date] object: its time value, milliseconds since 1970-01-01 UTC. *)
Record Date := mkDate { getTime : Z }.

Inductive ErrorCode := INVALID_NEPALI_DATE | INVALID_ENGLISH_DATE | OUT_OF_RANGE.

Record DateConversionError := mkError {
  message : string;
  code : ErrorCode;
  details : option string
}.

(** What a [throw] carries: an [Error] with a [code] property, or any other
    value (its message, where it is an [Error]). *)
Inductive exn :=
| Coded (e : DateConversionError)
| Uncoded (msg : option string).

Inductive outcome (A : Type) :=
| Return (a : A)
| Throw (e : exn)
| Wrong.
Arguments Return {A} a.
Arguments Throw {A} e.
Arguments Wrong {A}.

#[global] Instance outcome_bind : MBind outcome := fun A B k r =>
  match r with
  | Return a => k a
  | Throw e => Throw e
  | Wrong => Wrong
  end.

(** [true] when the function threw an error carrying code [c]. *)
Definition fails_with {A} (c : ErrorCode) (r : outcome A) : bool :=
  match r with
  | Throw (Coded e) =>
      match code e, c with
      | INVALID_NEPALI_DATE, INVALID_NEPALI_DATE
      | INVALID_ENGLISH_DATE, INVALID_ENGLISH_DATE
      | OUT_OF_RANGE, OUT_OF_RANGE => true
      | _, _ => false
      end
  | _ => false
  end.

(** ** The calendar table (BS 2000-2100) *)

Definition nepaliCalendarRows : list (Z * list Z) := [
  (2000, [30; 32; 31; 32; 31; 30; 30; 30; 29; 30; 29; 31]);
  (2001, [31; 31; 32; 31; 31; 31; 30; 29; 30; 29; 30; 30]);
  (2002, [31; 31; 32; 32; 31; 30; 30; 29; 30; 29; 30; 30]);
  (2003, [31; 32; 31; 32; 31; 30; 30; 30; 29; 29; 30; 31]);
  (2004, [30; 32; 31; 32; 31; 30; 30; 30; 29; 30; 29; 31]);
  (2005, [31; 31; 32; 31; 31; 31; 30; 29; 30; 29; 30; 30]);
  (2006, [31; 31; 32; 32; 31; 30; 30; 29; 30; 29; 30; 30]);
  (2007, [31; 32; 31; 32; 31; 30; 30; 30; 29; 29; 30; 31]);
  (2008, [31; 31; 31; 32; 31; 31; 29; 30; 30; 29; 29; 31]);
  (2009, [31; 31; 32; 31; 31; 31; 30; 29; 30; 29; 30; 30]);
  (2010, [31; 31; 32; 32; 31; 30; 30; 29; 30; 29; 30; 30]);
  (2011, [31; 32; 31; 32; 31; 30; 30; 30; 29; 29; 30; 31]);
  (2012, [31; 31; 31; 32; 31; 31; 29; 30; 30; 29; 30; 30]);
  (2013, [31; 31; 32; 31; 31; 31; 30; 29; 30; 29; 30; 30]);
  (2014, [31; 31; 32; 32; 31; 30; 30; 29; 30; 29; 30; 30]);
  (2015, [31; 32; 31; 32; 31; 30; 30; 30; 29; 29; 30; 31]);
  (2016, [31; 31; 31; 32; 31; 31; 29; 30; 30; 29; 30; 30]);
  (2017, [31; 31; 32; 31; 31; 31; 30; 29; 30; 29; 30; 30]);
  (2018, [31; 32; 31; 32; 31; 30; 30; 29; 30; 29; 30; 30]);
  (2019, [31; 32; 31; 32; 31; 30; 30; 30; 29; 30; 29; 31]);
  (2020, [31; 31; 31; 32; 31; 31; 30; 29; 30; 29; 30; 30]);
  (2021, [31; 31; 32; 31; 31; 31; 30; 29; 30; 29; 30; 30]);
  (2022, [31; 32; 31; 32; 31; 30; 30; 30; 29; 29; 30; 30]);
  (2023, [31; 32; 31; 32; 31; 30; 30; 30; 29; 30; 29; 31]);
  (2024, [31; 31; 31; 32; 31; 31; 30; 29; 30; 29; 30; 30]);
  (2025, [31; 31; 32; 31; 31; 31; 30; 29; 30; 29; 30; 30]);
  (2026, [31; 32; 31; 32; 31; 30; 30; 30; 29; 29; 30; 31]);
  (2027, [30; 32; 31; 32; 31; 30; 30; 30; 29; 30; 29; 31]);
  (2028, [31; 31; 32; 31; 31; 31; 30; 29; 30; 29; 30; 30]);
  (2029, [31; 31; 32; 31; 32; 30; 30; 29; 30; 29; 30; 30]);
  (2030, [31; 32; 31; 32; 31; 30; 30; 30; 29; 29; 30; 31]);
  (2031, [30; 32; 31; 32; 31; 30; 30; 30; 29; 30; 29; 31]);
  (2032, [31; 31; 32; 31; 31; 31; 30; 29; 30; 29; 30; 30]);
  (2033, [31; 31; 32; 32; 31; 30; 30; 29; 30; 29; 30; 30]);
  (2034, [31; 32; 31; 32; 31; 30; 30; 30; 29; 29; 30; 31]);
  (2035, [30; 32; 31; 32; 31; 31; 29; 30; 30; 29; 29; 31]);
  (2036, [31; 31; 32; 31; 31; 31; 30; 30; 29; 30; 30; 30]);
  (2037, [30; 31; 32; 32; 31; 30; 30; 30; 29; 30; 30; 30]);
  (2038, [30; 32; 31; 32; 31; 30; 30; 30; 29; 30; 30; 30]);
  (2039, [30; 31; 32; 32; 31; 30; 30; 30; 29; 30; 30; 30]);
  (2040, [30; 32; 31; 32; 31; 30; 30; 30; 29; 30; 30; 30]);
  (2041, [31; 31; 32; 31; 31; 31; 30; 30; 29; 30; 30; 30]);
  (2042, [30; 31; 32; 32; 31; 30; 30; 30; 29; 30; 30; 30]);
  (2043, [31; 32; 31; 32; 31; 30; 30; 30; 29; 30; 30; 30]);
  (2044, [31; 31; 32; 31; 31; 31; 30; 29; 30; 29; 30; 30]);
  (2045, [31; 31; 32; 31; 31; 31; 30; 29; 29; 30; 30; 30]);
  (2046, [31; 32; 31; 32; 31; 30; 30; 30; 29; 30; 30; 30]);
  (2047, [31; 31; 31; 32; 31; 31; 29; 30; 29; 30; 30; 30]);
  (2048, [31; 31; 32; 31; 31; 31; 30; 30; 29; 30; 30; 30]);
  (2049, [31; 32; 31; 32; 31; 30; 30; 30; 29; 30; 30; 30]);
  (2050, [31; 32; 31; 32; 31; 30; 30; 30; 29; 30; 30; 30]);
  (2051, [31; 31; 31; 32; 31; 31; 30; 29; 30; 29; 30; 30]);
  (2052, [31; 31; 32; 31; 31; 31; 30; 30; 29; 30; 30; 30]);
  (2053, [31; 32; 31; 32; 31; 30; 30; 30; 29; 30; 30; 30]);
  (2054, [31; 32; 31; 32; 31; 30; 30; 30; 29; 30; 30; 30]);
  (2055, [31; 31; 32; 31; 31; 31; 30; 29; 30; 29; 30; 30]);
  (2056, [31; 31; 32; 31; 32; 30; 30; 29; 30; 29; 30; 30]);
  (2057, [31; 32; 31; 32; 31; 30; 30; 30; 29; 30; 30; 30]);
  (2058, [30; 32; 31; 32; 31; 30; 30; 30; 29; 30; 30; 30]);
  (2059, [31; 31; 32; 31; 31; 31; 30; 29; 30; 29; 30; 30]);
  (2060, [31; 31; 32; 32; 31; 30; 30; 29; 30; 29; 30; 30]);
  (2061, [31; 32; 31; 32; 31; 30; 30; 30; 29; 29; 30; 31]);
  (2062, [30; 32; 31; 32; 31; 31; 29; 30; 29; 30; 29; 31]);
  (2063, [31; 31; 32; 31; 31; 31; 30; 29; 30; 29; 30; 30]);
  (2064, [31; 31; 32; 32; 31; 30; 30; 29; 30; 29; 30; 30]);
  (2065, [31; 32; 31; 32; 31; 30; 30; 30; 29; 29; 30; 31]);
  (2066, [31; 31; 31; 32; 31; 31; 29; 30; 30; 29; 29; 31]);
  (2067, [31; 31; 32; 31; 31; 31; 30; 29; 30; 29; 30; 30]);
  (2068, [31; 31; 32; 32; 31; 30; 30; 29; 30; 29; 30; 30]);
  (2069, [31; 32; 31; 32; 31; 30; 30; 30; 29; 29; 30; 31]);
  (2070, [31; 31; 31; 32; 31; 31; 29; 30; 30; 29; 30; 30]);
  (2071, [31; 31; 32; 31; 31; 31; 30; 29; 30; 29; 30; 30]);
  (2072, [31; 32; 31; 32; 31; 30; 30; 29; 30; 29; 30; 30]);
  (2073, [31; 32; 31; 32; 31; 30; 30; 30; 29; 29; 30; 31]);
  (2074, [31; 31; 31; 32; 31; 31; 30; 29; 30; 29; 30; 30]);
  (2075, [31; 31; 32; 31; 31; 31; 30; 29; 30; 29; 30; 30]);
  (2076, [31; 32; 31; 32; 31; 30; 30; 30; 29; 29; 30; 30]);
  (2077, [31; 32; 31; 32; 31; 30; 30; 30; 29; 30; 29; 31]);
  (2078, [31; 31; 31; 32; 31; 31; 30; 29; 30; 29; 30; 30]);
  (2079, [31; 31; 32; 31; 31; 31; 30; 29; 30; 29; 30; 30]);
  (2080, [31; 32; 31; 32; 31; 30; 30; 30; 29; 29; 30; 30]);
  (2081, [31; 31; 32; 32; 31; 30; 30; 30; 29; 30; 30; 30]);
  (2082, [30; 32; 31; 32; 31; 30; 30; 30; 29; 30; 30; 30]);
  (2083, [31; 31; 32; 31; 31; 30; 30; 30; 29; 30; 30; 30]);
  (2084, [31; 31; 32; 31; 31; 30; 30; 30; 29; 30; 30; 30]);
  (2085, [31; 32; 31; 32; 30; 31; 30; 30; 29; 30; 30; 30]);
  (2086, [30; 32; 31; 32; 31; 30; 30; 30; 29; 30; 30; 30]);
  (2087, [31; 31; 32; 31; 31; 31; 30; 30; 29; 30; 30; 30]);
  (2088, [30; 31; 32; 32; 30; 31; 30; 30; 29; 30; 30; 30]);
  (2089, [30; 32; 31; 32; 31; 30; 30; 30; 29; 30; 30; 30]);
  (2090, [30; 32; 31; 32; 31; 30; 30; 30; 29; 30; 30; 30]);
  (2091, [31; 31; 32; 31; 31; 31; 30; 30; 29; 30; 30; 30]);
  (2092, [30; 31; 32; 32; 31; 30; 30; 30; 29; 30; 30; 30]);
  (2093, [30; 32; 31; 32; 31; 30; 30; 30; 29; 30; 30; 30]);
  (2094, [31; 31; 32; 31; 31; 30; 30; 30; 29; 30; 30; 30]);
  (2095, [31; 31; 32; 31; 31; 31; 29; 30; 29; 30; 30; 30]);
  (2096, [30; 31; 32; 32; 31; 30; 30; 29; 30; 29; 30; 30]);
  (2097, [31; 32; 31; 32; 31; 30; 30; 30; 29; 30; 30; 30]);
  (2098, [31; 31; 32; 31; 31; 31; 30; 29; 29; 30; 30; 30]);
  (2099, [31; 31; 32; 31; 31; 31; 30; 29; 29; 30; 30; 30]);
  (2100, [31; 32; 31; 32; 30; 31; 30; 29; 30; 29; 30; 30])
].

Definition nepaliCalendarData : gmap Z (list Z) := list_to_map nepaliCalendarRows.

(** [a[i]] on an array: [undefined] ([None]) when [i] is not an index. *)
Definition js_index {A} (a : list A) (i : Z) : option A :=
  if i <? 0 then None else a !! Z.to_nat i.

Definition nepaliMonthNames : list string := [
  "बैशाख"; "जेठ"; "आषाढ"; "श्रावण"; "भाद्र"; "आश्विन";
  "कार्तिक"; "मंसिर"; "पौष"; "माघ"; "फाल्गुन"; "चैत्र"
]%string.

Definition createDateConversionError (c : ErrorCode) (msg : string)
    (det : option string) : DateConversionError :=
  {| message := msg; code := c; details := det |}.

(** ** Validator *)

Definition isValidNepaliDate (nepaliDate : NepaliDate) : bool :=
  let '(mkNepaliDate year month day) := nepaliDate in
  if (year <? 2000) || (year >? 2100) then false
  else if (month <? 1) || (month >? 12) then false
  else
    match nepaliCalendarData !! year with
    | None => false
    | Some monthData =>
        match js_index monthData (month - 1) with
        | None => false
        | Some daysInMonth => (day >=? 1) && (day <=? daysInMonth)
        end
    end.

(** ** The host's [Date] (ECMAScript, sections on time values) *)

Definition msPerDay : Z := 86400000.

Definition Day (t : Z) : Z := t / msPerDay.
Definition TimeWithinDay (t : Z) : Z := t mod msPerDay.

Definition DaysInYear (y : Z) : Z :=
  if negb (y mod 4 =? 0) then 365
  else if negb (y mod 100 =? 0) then 366
  else if negb (y mod 400 =? 0) then 365
  else 366.

Definition DayFromYear (y : Z) : Z :=
  365 * (y - 1970) + (y - 1969) / 4 - (y - 1901) / 100 + (y - 1601) / 400.

Definition TimeFromYear (y : Z) : Z := msPerDay * DayFromYear y.

(** The largest [y] with [TimeFromYear y <= t]: an estimate from the mean
    length of a year, moved by one where it misses. *)
Definition YearFromTime (t : Z) : Z :=
  let y0 := 1970 + Day t * 400 / 146097 in
  if TimeFromYear (y0 + 1) <=? t then y0 + 1
  else if t <? TimeFromYear y0 then y0 - 1
  else y0.

Definition InLeapYear (t : Z) : Z :=
  if DaysInYear (YearFromTime t) =? 366 then 1 else 0.

Definition DayWithinYear (t : Z) : Z := Day t - DayFromYear (YearFromTime t).

(** Day within the year on which month [m] (0 = January) starts. *)
Definition monthStart (leap m : Z) : Z :=
  match m with
  | 0 => 0
  | 1 => 31
  | 2 => 59 + leap
  | 3 => 90 + leap
  | 4 => 120 + leap
  | 5 => 151 + leap
  | 6 => 181 + leap
  | 7 => 212 + leap
  | 8 => 243 + leap
  | 9 => 273 + leap
  | 10 => 304 + leap
  | 11 => 334 + leap
  | _ => 365 + leap
  end.

Definition MonthFromTime (t : Z) : Z :=
  let d := DayWithinYear t in
  let leap := InLeapYear t in
  if d <? monthStart leap 1 then 0
  else if d <? monthStart leap 2 then 1
  else if d <? monthStart leap 3 then 2
  else if d <? monthStart leap 4 then 3
  else if d <? monthStart leap 5 then 4
  else if d <? monthStart leap 6 then 5
  else if d <? monthStart leap 7 then 6
  else if d <? monthStart leap 8 then 7
  else if d <? monthStart leap 9 then 8
  else if d <? monthStart leap 10 then 9
  else if d <? monthStart leap 11 then 10
  else 11.

Definition DateFromTime (t : Z) : Z :=
  DayWithinYear t - monthStart (InLeapYear t) (MonthFromTime t) + 1.

(** [MakeDay]: the day number of the first of the month, plus [date - 1];
    a [date] past the end of the month runs on into the next ones. *)
Definition MakeDay (year month date : Z) : Z :=
  let ym := year + month / 12 in
  let mn := month mod 12 in
  let leap := if DaysInYear ym =? 366 then 1 else 0 in
  DayFromYear ym + monthStart leap mn + date - 1.

Definition MakeDate (day time : Z) : Z := day * msPerDay + time.

Example day_zero : MakeDay 1970 0 1 = 0.
Proof. reflexivity. Qed.

Example leap_day_2024 :
  let t := MakeDate (MakeDay 2024 1 29) 0 in
  (YearFromTime t, MonthFromTime t, DateFromTime t) = (2024, 1, 29).
Proof. vm_compute. reflexivity. Qed.

Example new_year_eve_1899 :
  let t := MakeDate (MakeDay 1900 0 0) 0 in
  (YearFromTime t, MonthFromTime t, DateFromTime t) = (1899, 11, 31).
Proof. vm_compute. reflexivity. Qed.

(** ** Numbers to text *)

(** [String(n)] and [`${n}`] for an integer [n]: decimal digits, with a sign
    when negative. *)
Definition Number_toString (n : Z) : string := pretty n.

Fixpoint repeat_string (n : nat) (s : string) : string :=
  match n with
  | O => EmptyString
  | S n' => String.append s (repeat_string n' s)
  end.

(** [s.padStart(targetLength, pad)] for a one-character [pad]. *)
Definition padStart (s : string) (targetLength : nat) (pad : string) : string :=
  String.append (repeat_string (targetLength - String.length s) pad) s.

(** ** Facts of the table that the loops rely on *)

Definition row_ok (row : Z * list Z) : bool :=
  (2000 <=? row.1) && (row.1 <=? 2100) &&
  (length row.2 =? 12)%nat &&
  forallb (fun len => (29 <=? len) && (len <=? 32)) row.2.

Lemma nepaliCalendarRows_ok : forallb row_ok nepaliCalendarRows = true.
Proof. vm_compute. reflexivity. Qed.

Lemma nepaliCalendarData_row (y : Z) (monthData : list Z) :
  nepaliCalendarData !! y = Some monthData ->
  2000 <= y <= 2100 /\ length monthData = 12%nat /\
  (forall i len, monthData !! i = Some len -> 29 <= len <= 32).
Proof.
  intros Hy. apply elem_of_list_to_map_2 in Hy.
  pose proof nepaliCalendarRows_ok as Hall.
  rewrite forallb_forall in Hall.
  apply list_elem_of_In, Hall in Hy. unfold row_ok in Hy. simpl in Hy.
  apply andb_prop in Hy as [Hy Hlens]. apply andb_prop in Hy as [Hy Hlen].
  apply andb_prop in Hy as [Hlo Hhi].
  split; [lia|]. split; [by apply Nat.eqb_eq|].
  intros i len Hi. rewrite forallb_forall in Hlens.
  assert (Hin : In len monthData)
    by (apply list_elem_of_In; eapply list_elem_of_lookup_2; eauto).
  apply Hlens in Hin. lia.
Qed.

Lemma js_index_Some {A} (a : list A) (i : Z) (x : A) :
  js_index a i = Some x -> 0 <= i /\ a !! Z.to_nat i = Some x.
Proof.
  unfold js_index. destruct (i <? 0) eqn:Hi; [discriminate|]. intros H. split; [lia | done].
Qed.

Section Conversion.

(** The host's local time zone: a constant number of milliseconds east of
    UTC (Asia/Kathmandu today: 20700000).  A zone whose offset changes is
    [Js.Zone], further down. *)
Variable LocalTZA : Z.

Definition LocalTime (t : Z) : Z := t + LocalTZA.
Definition UTC (t : Z) : Z := t - LocalTZA.

(** [new Date(year, month, date)]: local midnight of that day; a [year]
    from 0 to 99 means 1900 + [year]. *)
Definition Date_ymd (year month date : Z) : Date :=
  let yr := if (0 <=? year) && (year <=? 99) then 1900 + year else year in
  mkDate (UTC (MakeDate (MakeDay yr month date) 0)).

Definition getFullYear (d : Date) : Z := YearFromTime (LocalTime (getTime d)).
Definition getMonth (d : Date) : Z := MonthFromTime (LocalTime (getTime d)).
Definition getDate (d : Date) : Z := DateFromTime (LocalTime (getTime d)).

Definition setDate (d : Date) (date : Z) : Date :=
  let t := LocalTime (getTime d) in
  let newDate := MakeDate (MakeDay (YearFromTime t) (MonthFromTime t) date) (TimeWithinDay t) in
  mkDate (UTC newDate).

(** The [catch] clause of both converters: an error with a [code] is thrown
    on, anything else is wrapped. *)
Definition catch_rewrap {A} (c : ErrorCode) (msg : string) (r : outcome A) : outcome A :=
  match r with
  | Throw (Coded e) => Throw (Coded e)
  | Throw (Uncoded m) =>
      Throw (Coded (createDateConversionError c msg (Some (default "Unknown error"%string m))))
  | _ => r
  end.

(** ** Forward converter *)

(** One pass through the body of the overflow loop. *)
Inductive iteration :=
| Break
| Continue (nepaliYear nepaliMonth nepaliDay : Z)
| Raise (e : exn)
| NaNDay.

Definition overflow_body (nepaliYear nepaliMonth nepaliDay : Z) : iteration :=
  match nepaliCalendarData !! nepaliYear with
  | None =>
      Raise (Coded (createDateConversionError OUT_OF_RANGE
                      "Date is beyond supported range"
                      (Some "Maximum supported year is 2100 BS"%string)))
  | Some monthData =>
      match js_index monthData (nepaliMonth - 1) with
      | None => NaNDay
      | Some daysInMonth =>
          if nepaliDay <=? daysInMonth then Break
          else
            let nepaliDay := nepaliDay - daysInMonth in
            let nepaliMonth := nepaliMonth + 1 in
            if nepaliMonth >? 12 then Continue (nepaliYear + 1) 1 nepaliDay
            else Continue nepaliYear nepaliMonth nepaliDay
      end
  end.

Lemma overflow_body_decreases y m d y' m' d' :
  overflow_body y m d = Continue y' m' d' -> 0 < d' < d.
Proof.
  unfold overflow_body.
  destruct (nepaliCalendarData !! y) as [monthData|] eqn:Hy; [|discriminate].
  destruct (js_index monthData (m - 1)) as [daysInMonth|] eqn:Hm; [|discriminate].
  apply nepaliCalendarData_row in Hy as (_ & _ & Hlen).
  apply js_index_Some in Hm as [_ Hm]. apply Hlen in Hm.
  destruct (d <=? daysInMonth) eqn:Hd; [discriminate|].
  destruct (m + 1 >? 12); intros [= <- <- <-]; lia.
Qed.

Definition inspect {A} (a : A) : {b : A | a = b} := exist _ a eq_refl.

(** [while (nepaliDay > 0) { ... }], then the [return] after it. *)
Opaque overflow_body.
Equations? overflow_loop (nepaliYear nepaliMonth nepaliDay : Z) : outcome NepaliDate
  by wf (Z.to_nat nepaliDay) lt :=
overflow_loop y m d with d >? 0 := {
  | false => Return (mkNepaliDate y m d)
  | true with inspect (overflow_body y m d) := {
    | exist _ Break _ => Return (mkNepaliDate y m d)
    | exist _ (Continue y' m' d') Hbody => overflow_loop y' m' d'
    | exist _ (Raise e) _ => Throw e
    | exist _ NaNDay _ => Wrong } }.
Proof. apply overflow_body_decreases in Hbody. lia. Qed.
Transparent overflow_body.

Definition englishToNepali (englishDate : Date) : outcome NepaliDate :=
  catch_rewrap INVALID_ENGLISH_DATE "Failed to convert English date to Nepali" (
    let referenceEnglish := Date_ymd 1943 3 14 in
    let referenceNepali := mkNepaliDate 2000 1 1 in
    let diffTime := getTime englishDate - getTime referenceEnglish in
    let diffDays := diffTime / (1000 * 60 * 60 * 24) in
    if diffDays <? 0 then
      Throw (Coded (createDateConversionError OUT_OF_RANGE
                      "Date is before supported range"
                      (Some "Minimum supported date is April 14, 1943 AD"%string)))
    else
      overflow_loop (year referenceNepali) (month referenceNepali)
                    (day referenceNepali + diffDays)).

(** ** Reverse converter *)

(** [for (let year = ...; year < nepaliDate.year; year++)]: the bound is
    fixed on entry, so the loop runs [n] times from [year]. *)
Fixpoint completeYears (n : nat) (year totalDays : Z) : outcome Z :=
  match n with
  | O => Return totalDays
  | S n' =>
      match nepaliCalendarData !! year with
      | None =>
          Throw (Coded (createDateConversionError OUT_OF_RANGE "Year not supported"
                          (Some (String.append "Year: " (Number_toString year)))))
      | Some monthData =>
          completeYears n' (year + 1)
            (totalDays + fold_left (fun sum days => sum + days) monthData 0)
      end
  end.

(** [for (let month = 1; month < nepaliDate.month; month++)]. *)
Fixpoint completeMonths (targetYearData : list Z) (n : nat) (month totalDays : Z)
    : outcome Z :=
  match n with
  | O => Return totalDays
  | S n' =>
      match js_index targetYearData (month - 1) with
      | None => Wrong
      | Some days => completeMonths targetYearData n' (month + 1) (totalDays + days)
      end
  end.

Definition nepaliToEnglish (nepaliDate : NepaliDate) : outcome Date :=
  catch_rewrap INVALID_NEPALI_DATE "Failed to convert Nepali date to English" (
    if negb (isValidNepaliDate nepaliDate) then
      Throw (Coded (createDateConversionError INVALID_NEPALI_DATE
                      "Invalid Nepali date provided"
                      (Some (String.concat "" [
                         "Date: "; Number_toString (year nepaliDate);
                         "/"; Number_toString (month nepaliDate);
                         "/"; Number_toString (day nepaliDate)]%string))))
    else
      let referenceEnglish := Date_ymd 1943 3 14 in
      let referenceNepali := mkNepaliDate 2000 1 1 in
      totalDays ← completeYears (Z.to_nat (year nepaliDate - year referenceNepali))
                                (year referenceNepali) 0;
      match nepaliCalendarData !! year nepaliDate with
      | None =>
          Throw (Coded (createDateConversionError OUT_OF_RANGE "Year not supported"
                          (Some (String.append "Year: "
                                   (Number_toString (year nepaliDate))))))
      | Some targetYearData =>
          totalDays ← completeMonths targetYearData
                                     (Z.to_nat (month nepaliDate - 1)) 1 totalDays;
          let totalDays := totalDays + (day nepaliDate - day referenceNepali) in
          let resultDate := mkDate (getTime referenceEnglish) in
          Return (setDate resultDate (getDate resultDate + totalDays))
      end).

(** ** Formatter *)

Inductive DateFormat := short | long.

Definition formatNepaliDate (nepaliDate : NepaliDate) (format : DateFormat) : string :=
  let '(mkNepaliDate year month day) := nepaliDate in
  match format with
  | long =>
      let monthName := default "undefined"%string (js_index nepaliMonthNames (month - 1)) in
      String.concat "" [Number_toString day; " "; monthName; " "; Number_toString year]%string
  | short =>
      String.concat "" [
        Number_toString year; "/";
        padStart (Number_toString month) 2 "0"; "/";
        padStart (Number_toString day) 2 "0"]%string
  end.

(** ** Current date, with [new Date()] passed in as [now] *)

Definition getCurrentNepaliDate (now : Date) : outcome NepaliDate :=
  match englishToNepali now with
  | Throw _ => Return (mkNepaliDate 2081 1 1)
  | r => r
  end.

(** ** Vocabulary of the statements *)

(** Whole days from the reference date to [g], the [diffDays] of
    [englishToNepali]. *)
Definition diffDays (g : Date) : Z :=
  (getTime g - getTime (Date_ymd 1943 3 14)) / msPerDay.

(** The local calendar day of [g], counted from 1970-01-01. *)
Definition localDay (g : Date) : Z := Day (LocalTime (getTime g)).

(** Date-only comparison: the same local year, month and day of the month. *)
Definition sameDate (g1 g2 : Date) : Prop :=
  getFullYear g1 = getFullYear g2 /\ getMonth g1 = getMonth g2 /\
  getDate g1 = getDate g2.

End Conversion.

(** ** Day-count lookup *)

Definition getDaysInNepaliMonth (year month : Z) : outcome Z :=
  match nepaliCalendarData !! year with
  | Some monthData =>
      if (month <? 1) || (month >? 12) then
        Throw (Coded (createDateConversionError INVALID_NEPALI_DATE "Invalid year or month"
                        (Some (String.concat "" [
                           "Year: "; Number_toString year;
                           ", Month: "; Number_toString month]%string))))
      else
        match js_index monthData (month - 1) with
        | Some days => Return days
        | None => Wrong
        end
  | None =>
      Throw (Coded (createDateConversionError INVALID_NEPALI_DATE "Invalid year or month"
                      (Some (String.concat "" [
                         "Year: "; Number_toString year;
                         ", Month: "; Number_toString month]%string))))
  end.

(** ** Calendar arithmetic used in the statements *)

(** The length of month [m] of year [y] as the table has it, 0 where it
    has none. *)
Definition monthLength (y m : Z) : Z :=
  match nepaliCalendarData !! y with
  | Some monthData => default 0 (js_index monthData (m - 1))
  | None => 0
  end.

(** Days in the [n] months of year [y] from month [m] on. *)
Fixpoint monthsSpan (y : Z) (n : nat) (m : Z) : Z :=
  match n with
  | O => 0
  | S n' => monthLength y m + monthsSpan y n' (m + 1)
  end.

Definition yearLength (y : Z) : Z := monthsSpan y 12 1.

(** Days in the [n] years from year [y] on. *)
Fixpoint yearsSpan (n : nat) (y : Z) : Z :=
  match n with
  | O => 0
  | S n' => yearLength y + yearsSpan n' (y + 1)
  end.

(** Days from BS 2000/1/1 to a date. *)
Definition daysSinceEpoch (d : NepaliDate) : Z :=
  yearsSpan (Z.to_nat (year d - 2000)) 2000
  + monthsSpan (year d) (Z.to_nat (month d - 1)) 1
  + (day d - 1).

(** All the days of the table, BS 2000 to 2100. *)
Definition totalTableDays : Z := foldr Z.add 0 (concat (map snd nepaliCalendarRows)).

(** Lexicographic order on (year, month, day). *)
Definition precedes (d1 d2 : NepaliDate) : Prop :=
  year d1 < year d2 \/
  (year d1 = year d2 /\
   (month d1 < month d2 \/ (month d1 = month d2 /\ day d1 < day d2))).

(** * The calendar component (components/ui/nepali-date-picker)

    The state a React hook holds is an argument of the function that reads
    it, and what a handler does (the state it sets, the callbacks it calls)
    is its result. *)

(** [WeekDay], 0 for Sunday (1 January 1970 was a Thursday). *)
Definition WeekDay (t : Z) : Z := (Day t + 4) mod 7.

Record CalendarData := mkCalendarData {
  days : list (option NepaliDate);
  daysInMonth : Z
}.

(** [for (let i = 0; i < startDayOfWeek; i++) days.push(null)]. *)
Fixpoint pushNulls (n : nat) (days : list (option NepaliDate))
    : list (option NepaliDate) :=
  match n with
  | O => days
  | S n' => pushNulls n' (days ++ [None])
  end.

(** [for (let day = 1; day <= daysInMonth; day++) days.push({...})]. *)
Fixpoint pushDays (currentMonth : NepaliDate) (n : nat) (day : Z)
    (days : list (option NepaliDate)) : list (option NepaliDate) :=
  match n with
  | O => days
  | S n' =>
      pushDays currentMonth n' (day + 1)
        (days ++ [Some (mkNepaliDate (year currentMonth) (month currentMonth) day)])
  end.

(** [err instanceof Error ? err.message : "Failed to generate calendar"]. *)
Definition errorMessage (err : exn) : string :=
  match err with
  | Coded e => message e
  | Uncoded (Some msg) => msg
  | Uncoded None => "Failed to generate calendar"
  end.

Inductive Direction := prev | next.

Definition navigateMonth (direction : Direction) (prevState : NepaliDate) : NepaliDate :=
  let newMonth := month prevState + (match direction with next => 1 | prev => -1 end) in
  let newYear := year prevState in
  let '(newMonth, newYear) :=
    if newMonth >? 12 then (1, newYear + 1)
    else if newMonth <? 1 then (12, newYear - 1)
    else (newMonth, newYear) in
  if (newYear <? 2000) || (newYear >? 2100) then prevState
  else mkNepaliDate newYear newMonth 1.

(** The [disabled] attributes of the previous and next buttons. *)
Definition prevDisabled (currentMonth : NepaliDate) : bool :=
  (year currentMonth <=? 2000) && (month currentMonth <=? 1).

Definition nextDisabled (currentMonth : NepaliDate) : bool :=
  (year currentMonth >=? 2100) && (month currentMonth >=? 12).

Definition isDateDisabled (minDate maxDate : option NepaliDate) (date : NepaliDate) : bool :=
  if match minDate with
     | Some minDate =>
         (year date <? year minDate)
         || ((year date =? year minDate) && (month date <? month minDate))
         || ((year date =? year minDate) && (month date =? month minDate)
             && (day date <? day minDate))
     | None => false
     end
  then true
  else if match maxDate with
          | Some maxDate =>
              (year date >? year maxDate)
              || ((year date =? year maxDate) && (month date >? month maxDate))
              || ((year date =? year maxDate) && (month date =? month maxDate)
                  && (day date >? day maxDate))
          | None => false
          end
  then true
  else false.

Definition isDateSelected (selectedDate : option NepaliDate) (date : NepaliDate) : bool :=
  match selectedDate with
  | Some selectedDate =>
      (year date =? year selectedDate) && (month date =? month selectedDate)
      && (day date =? day selectedDate)
  | None => false
  end.

(** The [tabIndex] of a day's button. *)
Definition cellTabIndex (selectedDate : option NepaliDate) (date : NepaliDate) : Z :=
  if isDateSelected selectedDate date
     || (negb (bool_decide (is_Some selectedDate)) && (day date =? 1))
  then 0 else -1.

(** What the calendar's key handler did: whether it called
    [preventDefault], the date it passed to [setFocusedDate] and the date it
    passed to [onDateSelect], if any. *)
Record KeyResult := mkKeyResult {
  defaultPrevented : bool;
  newFocus : option NepaliDate;
  selection : option NepaliDate
}.

(** The end of a navigation key's case: the day is stored, then
    [if (isValidNepaliDate(newFocusedDate)) setFocusedDate(newFocusedDate)];
    an error thrown while the day was computed is caught and logged. *)
Definition focusOnDay (newFocusedDate : NepaliDate) (newDay : outcome Z) : outcome KeyResult :=
  match newDay with
  | Return d =>
      let newFocusedDate :=
        mkNepaliDate (year newFocusedDate) (month newFocusedDate) d in
      Return (mkKeyResult true
                (if isValidNepaliDate newFocusedDate then Some newFocusedDate else None)
                None)
  | Throw _ => Return (mkKeyResult true None None)
  | Wrong => Wrong
  end.

Definition handleKeyDown (minDate maxDate focusedDate : option NepaliDate) (key : string)
    : outcome KeyResult :=
  match focusedDate with
  | None => Return (mkKeyResult false None None)
  | Some focusedDate =>
      let newFocusedDate := focusedDate in
      if String.eqb key "ArrowLeft" then
        focusOnDay newFocusedDate (Return (Z.max 1 (day newFocusedDate - 1)))
      else if String.eqb key "ArrowRight" then
        focusOnDay newFocusedDate (
          maxDay ← getDaysInNepaliMonth (year newFocusedDate) (month newFocusedDate);
          Return (Z.min maxDay (day newFocusedDate + 1)))
      else if String.eqb key "ArrowUp" then
        focusOnDay newFocusedDate (Return (Z.max 1 (day newFocusedDate - 7)))
      else if String.eqb key "ArrowDown" then
        focusOnDay newFocusedDate (
          maxDayDown ← getDaysInNepaliMonth (year newFocusedDate) (month newFocusedDate);
          Return (Z.min maxDayDown (day newFocusedDate + 7)))
      else if String.eqb key "Enter" || String.eqb key " " then
        Return (mkKeyResult true None
                  (if isValidNepaliDate newFocusedDate
                      && negb (isDateDisabled minDate maxDate newFocusedDate)
                   then Some newFocusedDate else None))
      else if String.eqb key "Home" then
        focusOnDay newFocusedDate (Return 1)
      else if String.eqb key "End" then
        focusOnDay newFocusedDate
          (getDaysInNepaliMonth (year newFocusedDate) (month newFocusedDate))
      else Return (mkKeyResult false None None)
  end.

(** The picker's state and the callbacks a handler calls. *)
Record PickerState := mkPickerState {
  selectedDate : option NepaliDate;
  isOpen : bool
}.

Inductive PickerEvent :=
| onValueChange (date : option NepaliDate)
| onError (error : DateConversionError).

Definition handleDateSelect (st : PickerState) (date : NepaliDate)
    : PickerState * list PickerEvent :=
  if negb (isValidNepaliDate date) then
    (st, [onError (createDateConversionError INVALID_NEPALI_DATE
                     "Selected date is invalid"
                     (Some (String.concat "" [
                        "Date: "; Number_toString (year date);
                        "/"; Number_toString (month date);
                        "/"; Number_toString (day date)]%string)))])
  else (mkPickerState (Some date) false, [onValueChange (Some date)]).

Section Picker.

Variable LocalTZA : Z.

Definition getDay (d : Date) : Z := WeekDay (LocalTime LocalTZA (getTime d)).

(** The initial [currentMonth], with [new Date()] passed in as [now]. *)
Definition initialMonth (selectedDate : option NepaliDate) (now : Date)
    : outcome NepaliDate :=
  let fromCurrentDate :=
    match getCurrentNepaliDate LocalTZA now with
    | Return currentDate =>
        if isValidNepaliDate currentDate then Return currentDate
        else Return (mkNepaliDate 2081 8 15)
    | Throw _ => Return (mkNepaliDate 2081 8 15)
    | Wrong => Wrong
    end in
  match selectedDate with
  | Some selectedDate =>
      if isValidNepaliDate selectedDate then Return selectedDate else fromCurrentDate
  | None => fromCurrentDate
  end.

(** The memoised [calendarData], with the value it gives the [error] state. *)
Definition calendarData (currentMonth : NepaliDate)
    : outcome (CalendarData * option string) :=
  match
    daysInMonth ← getDaysInNepaliMonth (year currentMonth) (month currentMonth);
    firstDayOfMonth ← nepaliToEnglish LocalTZA
                        (mkNepaliDate (year currentMonth) (month currentMonth) 1);
    let startDayOfWeek := getDay firstDayOfMonth in
    let days := pushNulls (Z.to_nat startDayOfWeek) [] in
    let days := pushDays currentMonth (Z.to_nat daysInMonth) 1 days in
    Return (mkCalendarData days daysInMonth, None)
  with
  | Throw err => Return (mkCalendarData [] 0, Some (errorMessage err))
  | r => r
  end.

End Picker.

(** * The converters on the host's own values

    The model above takes every number to be an integer and the host's zone
    to have one offset.  JavaScript has more: the time value of a [Date] may
    be [NaN] (the Invalid Date), and the offset of a zone depends on the
    instant (Asia/Kathmandu was at +5:30 on 14 April 1943 and is at +5:45
    since 1986).  This part embeds the validator and the two converters once
    more, over numbers that may be [NaN] and a zone whose offset may change;
    the loops, the table and the errors are those of the model above. *)

Module Js.

(** The dates and the loop of the model above, under names that stay free
    below. *)
Definition IntegerDate : Type := NepaliDate.
Definition integerFields (d : NepaliDate) : Z * Z * Z := (year d, month d, day d).
Definition integer_overflow_loop := overflow_loop.

(** A number: an integer or [NaN]. *)
Inductive number := Num (z : Z) | NaN.

Definition add (a b : number) : number :=
  match a, b with Num x, Num y => Num (x + y) | _, _ => NaN end.
Definition sub (a b : number) : number :=
  match a, b with Num x, Num y => Num (x - y) | _, _ => NaN end.

(** Comparisons: false as soon as one side is [NaN]. *)
Definition ltb (a b : number) : bool :=
  match a, b with Num x, Num y => x <? y | _, _ => false end.
Definition gtb (a b : number) : bool :=
  match a, b with Num x, Num y => x >? y | _, _ => false end.
Definition leb (a b : number) : bool :=
  match a, b with Num x, Num y => x <=? y | _, _ => false end.
Definition geb (a b : number) : bool :=
  match a, b with Num x, Num y => x >=? y | _, _ => false end.

(** [Math.floor(a / b)] for a positive integer [b]. *)
Definition floor_div (a : number) (b : Z) : number :=
  match a with Num x => Num (x / b) | NaN => NaN end.

Definition toString (a : number) : string :=
  match a with Num x => Number_toString x | NaN => "NaN" end.

Record NepaliDate := mkNepaliDate { year : number; month : number; day : number }.

(** A [Date]: its time value, [NaN] for the Invalid Date. *)
Record Date := mkDate { getTime : number }.

Definition ofInteger (d : IntegerDate) : NepaliDate :=
  let '(y, m, k) := integerFields d in mkNepaliDate (Num y) (Num m) (Num k).

(** [nepaliCalendarData[year]] and [monthData[i]] for a number. *)
Definition table_lookup (key : number) : option (list Z) :=
  match key with Num y => nepaliCalendarData !! y | NaN => None end.
Definition index (monthData : list Z) (i : number) : option Z :=
  match i with Num i => js_index monthData i | NaN => None end.

Definition isValidNepaliDate (nepaliDate : NepaliDate) : bool :=
  let '(mkNepaliDate year month day) := nepaliDate in
  if ltb year (Num 2000) || gtb year (Num 2100) then false
  else if ltb month (Num 1) || gtb month (Num 12) then false
  else
    match table_lookup year with
    | None => false
    | Some monthData =>
        match index monthData (sub month (Num 1)) with
        | None => false
        | Some daysInMonth => geb day (Num 1) && leb day (Num daysInMonth)
        end
    end.

(** A zone: the offset in force at a UTC instant, and the offset the host
    takes for a local time (milliseconds east of UTC). *)
Record Zone := mkZone { utcOffset : Z -> Z; localOffset : Z -> Z }.

Definition fixedZone (offset : Z) : Zone :=
  {| utcOffset := fun _ => offset; localOffset := fun _ => offset |}.

(** Asia/Kathmandu from 1920 on: +5:30 until the end of 1985, +5:45 since.
    The quarter hour the clocks skipped is read with the offset before it. *)
Definition kathmandu : Zone :=
  let switch := MakeDate (MakeDay 1986 0 1) 0 in
  {| utcOffset := fun t => if t <? switch - 19800000 then 19800000 else 20700000;
     localOffset := fun t => if t <? switch + 900000 then 19800000 else 20700000 |}.

Section Host.

Variable zone : Zone.

Definition LocalTime (t : Z) : Z := t + utcOffset zone t.
Definition UTC (t : Z) : Z := t - localOffset zone t.

Definition Date_ymd (year month date : Z) : Date :=
  let yr := if (0 <=? year) && (year <=? 99) then 1900 + year else year in
  mkDate (Num (UTC (MakeDate (MakeDay yr month date) 0))).

Definition getFullYear (d : Date) : number :=
  match getTime d with Num t => Num (YearFromTime (LocalTime t)) | NaN => NaN end.
Definition getMonth (d : Date) : number :=
  match getTime d with Num t => Num (MonthFromTime (LocalTime t)) | NaN => NaN end.
Definition getDate (d : Date) : number :=
  match getTime d with Num t => Num (DateFromTime (LocalTime t)) | NaN => NaN end.

Definition setDate (d : Date) (date : number) : Date :=
  match getTime d, date with
  | Num tv, Num dt =>
      let t := LocalTime tv in
      let newDate :=
        MakeDate (MakeDay (YearFromTime t) (MonthFromTime t) dt) (TimeWithinDay t) in
      mkDate (Num (UTC newDate))
  | _, _ => mkDate NaN
  end.

(** [while (nepaliDay > 0) { ... }] and the [return] after it: [NaN > 0] is
    false, so for [NaN] the loop is skipped. *)
Definition overflow_loop (nepaliYear nepaliMonth : Z) (nepaliDay : number)
    : outcome NepaliDate :=
  match nepaliDay with
  | NaN => Return (mkNepaliDate (Num nepaliYear) (Num nepaliMonth) NaN)
  | Num d =>
      r ← integer_overflow_loop nepaliYear nepaliMonth d; Return (ofInteger r)
  end.

Definition englishToNepali (englishDate : Date) : outcome NepaliDate :=
  catch_rewrap INVALID_ENGLISH_DATE "Failed to convert English date to Nepali" (
    let referenceEnglish := Date_ymd 1943 3 14 in
    let referenceNepali := mkNepaliDate (Num 2000) (Num 1) (Num 1) in
    let diffTime := sub (getTime englishDate) (getTime referenceEnglish) in
    let diffDays := floor_div diffTime (1000 * 60 * 60 * 24) in
    if ltb diffDays (Num 0) then
      Throw (Coded (createDateConversionError OUT_OF_RANGE
                      "Date is before supported range"
                      (Some "Minimum supported date is April 14, 1943 AD"%string)))
    else
      overflow_loop 2000 1 (add (day referenceNepali) diffDays)).

(** How often [for (let i = from; i < bound; i++)] runs. *)
Definition iterations (from : Z) (bound : number) : nat :=
  match bound with Num b => Z.to_nat (b - from) | NaN => O end.

Definition nepaliToEnglish (nepaliDate : NepaliDate) : outcome Date :=
  catch_rewrap INVALID_NEPALI_DATE "Failed to convert Nepali date to English" (
    if negb (isValidNepaliDate nepaliDate) then
      Throw (Coded (createDateConversionError INVALID_NEPALI_DATE
                      "Invalid Nepali date provided"
                      (Some (String.concat "" [
                         "Date: "; toString (year nepaliDate);
                         "/"; toString (month nepaliDate);
                         "/"; toString (day nepaliDate)]%string))))
    else
      let referenceEnglish := Date_ymd 1943 3 14 in
      let referenceNepali := mkNepaliDate (Num 2000) (Num 1) (Num 1) in
      totalDays ← completeYears (iterations 2000 (year nepaliDate)) 2000 0;
      match table_lookup (year nepaliDate) with
      | None =>
          Throw (Coded (createDateConversionError OUT_OF_RANGE "Year not supported"
                          (Some (String.append "Year: " (toString (year nepaliDate))))))
      | Some targetYearData =>
          totalDays ← completeMonths targetYearData
                                     (iterations 1 (month nepaliDate)) 1 totalDays;
          let totalDays :=
            add (Num totalDays) (sub (day nepaliDate) (day referenceNepali)) in
          let resultDate := mkDate (getTime referenceEnglish) in
          Return (setDate resultDate (add (getDate resultDate) totalDays))
      end).

(** A local time the zone did not skip: to UTC and back gives it again. *)
Definition regular_at (tl : Z) : Prop := LocalTime (UTC tl) = tl.

End Host.

(** The local time of the reference date: midnight, 14 April 1943. *)
Definition referenceLocal : Z := MakeDate (MakeDay 1943 3 14) 0.

End Js.

(** * Properties *)

(** ** The table *)

(** The table is looked up through its lemmas, or by [vm_compute]. *)
Opaque nepaliCalendarData.
Arguments monthLength : simpl never.

Lemma nepaliCalendarData_years :
  forallb (fun y => bool_decide (is_Some (nepaliCalendarData !! y))) (seqZ 2000 101) = true.
Proof. vm_compute. reflexivity. Qed.

Lemma nepaliCalendarData_lookup (y : Z) :
  2000 <= y <= 2100 -> exists monthData, nepaliCalendarData !! y = Some monthData.
Proof.
  intros Hy. pose proof nepaliCalendarData_years as Hall.
  rewrite forallb_forall in Hall.
  assert (Hin : In y (seqZ 2000 101)) by (apply list_elem_of_In, elem_of_seqZ; lia).
  apply Hall, bool_decide_eq_true in Hin. exact Hin.
Qed.

Lemma nepaliCalendarData_None (y : Z) :
  ~ 2000 <= y <= 2100 -> nepaliCalendarData !! y = None.
Proof.
  intros Hy. destruct (nepaliCalendarData !! y) as [monthData|] eqn:E; [|done].
  apply nepaliCalendarData_row in E. tauto.
Qed.

Lemma js_index_row (monthData : list Z) (m : Z) :
  length monthData = 12%nat -> 1 <= m <= 12 ->
  exists len, js_index monthData (m - 1) = Some len.
Proof.
  intros Hlen Hm. unfold js_index.
  destruct (m - 1 <? 0) eqn:E; [lia|].
  apply lookup_lt_is_Some. lia.
Qed.

Lemma monthLength_range (y m : Z) :
  2000 <= y <= 2100 -> 1 <= m <= 12 -> 29 <= monthLength y m <= 32.
Proof.
  intros Hy Hm. unfold monthLength.
  destruct (nepaliCalendarData_lookup y Hy) as [monthData E]. rewrite E.
  apply nepaliCalendarData_row in E as (_ & Hlen & Hall).
  destruct (js_index_row monthData m Hlen Hm) as [len El]. rewrite El. simpl.
  apply js_index_Some in El as [_ El]. eauto.
Qed.

Lemma totalTableDays_value : totalTableDays = 36894.
Proof. vm_compute. reflexivity. Qed.

Lemma totalTableDays_yearsSpan : totalTableDays = yearsSpan 101 2000.
Proof. vm_compute. reflexivity. Qed.

(** ** The overflow loop *)

Lemma overflow_loop_eq (y m d : Z) :
  overflow_loop y m d =
  if d >? 0 then
    match overflow_body y m d with
    | Break => Return (mkNepaliDate y m d)
    | Continue y' m' d' => overflow_loop y' m' d'
    | Raise e => Throw e
    | NaNDay => Wrong
    end
  else Return (mkNepaliDate y m d).
Proof.
  rewrite overflow_loop_unfold_eq. unfold overflow_loop_unfold.
  unfold overflow_loop_unfold_clause_1.
  destruct (d >? 0); [|reflexivity].
  unfold overflow_loop_unfold_clause_1_clause_2, inspect.
  destruct (overflow_body y m d); reflexivity.
Qed.

Lemma monthLength_lookup (y m : Z) (monthData : list Z) (len : Z) :
  nepaliCalendarData !! y = Some monthData ->
  js_index monthData (m - 1) = Some len ->
  monthLength y m = len.
Proof. intros Hy Hm. unfold monthLength. by rewrite Hy, Hm. Qed.

Lemma monthLength_Some (y m : Z) :
  2000 <= y <= 2100 -> 1 <= m <= 12 ->
  exists monthData,
    nepaliCalendarData !! y = Some monthData /\
    js_index monthData (m - 1) = Some (monthLength y m).
Proof.
  intros Hy Hm. destruct (nepaliCalendarData_lookup y Hy) as [monthData E].
  exists monthData. split; [done|].
  pose proof E as (_ & Hlen & _)%nepaliCalendarData_row.
  destruct (js_index_row monthData m Hlen Hm) as [len El].
  by rewrite (monthLength_lookup y m monthData len).
Qed.

Lemma isValidNepaliDate_true (d : NepaliDate) :
  isValidNepaliDate d = true <->
  2000 <= year d <= 2100 /\ 1 <= month d <= 12 /\
  1 <= day d <= monthLength (year d) (month d).
Proof.
  destruct d as [y m d]. unfold isValidNepaliDate. simpl.
  destruct ((y <? 2000) || (y >? 2100)) eqn:Ey; [split; [done|lia]|].
  destruct ((m <? 1) || (m >? 12)) eqn:Em; [split; [done|lia]|].
  assert (Hy : 2000 <= y <= 2100) by lia. assert (Hm : 1 <= m <= 12) by lia.
  destruct (monthLength_Some y m Hy Hm) as (monthData & -> & ->). lia.
Qed.

Lemma overflow_body_in_table (y m d : Z) :
  2000 <= y <= 2100 -> 1 <= m <= 12 ->
  overflow_body y m d =
  if d <=? monthLength y m then Break
  else if m + 1 >? 12 then Continue (y + 1) 1 (d - monthLength y m)
  else Continue y (m + 1) (d - monthLength y m).
Proof.
  intros Hy Hm. unfold overflow_body.
  by destruct (monthLength_Some y m Hy Hm) as (monthData & -> & ->).
Qed.

Lemma overflow_loop_stop (y m d : Z) :
  2000 <= y <= 2100 -> 1 <= m <= 12 -> 1 <= d <= monthLength y m ->
  overflow_loop y m d = Return (mkNepaliDate y m d).
Proof.
  intros Hy Hm Hd. rewrite overflow_loop_eq, overflow_body_in_table by done.
  destruct (d >? 0) eqn:E1; [|done].
  destruct (d <=? monthLength y m) eqn:E2; [done|lia].
Qed.

Lemma overflow_loop_next_month (y m d : Z) :
  2000 <= y <= 2100 -> 1 <= m < 12 -> 1 <= d ->
  overflow_loop y m (monthLength y m + d) = overflow_loop y (m + 1) d.
Proof.
  intros Hy Hm Hd. pose proof (monthLength_range y m Hy ltac:(lia)).
  rewrite overflow_loop_eq, overflow_body_in_table by (done || lia).
  destruct (monthLength y m + d >? 0) eqn:E1; [|lia].
  destruct (monthLength y m + d <=? monthLength y m) eqn:E2; [lia|].
  destruct (m + 1 >? 12) eqn:E3; [lia|]. f_equal. lia.
Qed.

Lemma overflow_loop_next_year (y d : Z) :
  2000 <= y <= 2100 -> 1 <= d ->
  overflow_loop y 12 (monthLength y 12 + d) = overflow_loop (y + 1) 1 d.
Proof.
  intros Hy Hd. pose proof (monthLength_range y 12 Hy ltac:(lia)).
  rewrite overflow_loop_eq, overflow_body_in_table by (done || lia).
  destruct (monthLength y 12 + d >? 0) eqn:E1; [|lia].
  destruct (monthLength y 12 + d <=? monthLength y 12) eqn:E2; [lia|].
  simpl. f_equal. lia.
Qed.

Lemma overflow_loop_beyond (y m d : Z) :
  ~ 2000 <= y <= 2100 -> 1 <= d ->
  overflow_loop y m d =
  Throw (Coded (createDateConversionError OUT_OF_RANGE
                  "Date is beyond supported range"
                  (Some "Maximum supported year is 2100 BS"%string))).
Proof.
  intros Hy Hd. rewrite overflow_loop_eq. unfold overflow_body.
  rewrite (nepaliCalendarData_None y Hy).
  destruct (d >? 0) eqn:E; [done|lia].
Qed.

Lemma monthsSpan_snoc (y : Z) (n : nat) (m : Z) :
  monthsSpan y (S n) m = monthsSpan y n m + monthLength y (m + Z.of_nat n).
Proof.
  revert m. induction n as [|n IH]; intros m.
  - replace (m + Z.of_nat 0) with m by lia. simpl. lia.
  - change (monthsSpan y (S (S n)) m)
      with (monthLength y m + monthsSpan y (S n) (m + 1)).
    rewrite IH. simpl. replace (m + 1 + Z.of_nat n) with (m + Z.of_nat (S n)) by lia. lia.
Qed.

Lemma monthsSpan_nonneg (y : Z) (n : nat) (m : Z) :
  2000 <= y <= 2100 -> 1 <= m -> m + Z.of_nat n <= 13 -> 0 <= monthsSpan y n m.
Proof.
  intros Hy. revert m. induction n as [|n IH]; intros m Hm Hn; simpl; [lia|].
  pose proof (monthLength_range y m Hy ltac:(lia)).
  specialize (IH (m + 1) ltac:(lia) ltac:(lia)). lia.
Qed.

Lemma overflow_loop_months (y : Z) (n : nat) (m d : Z) :
  2000 <= y <= 2100 -> 1 <= m -> m + Z.of_nat n <= 12 -> 1 <= d ->
  overflow_loop y m (monthsSpan y n m + d) = overflow_loop y (m + Z.of_nat n) d.
Proof.
  intros Hy. revert m d. induction n as [|n IH]; intros m d Hm Hn Hd.
  - simpl. f_equal. lia.
  - simpl monthsSpan.
    pose proof (monthsSpan_nonneg y n (m + 1) Hy ltac:(lia) ltac:(lia)).
    replace (monthLength y m + monthsSpan y n (m + 1) + d)
      with (monthLength y m + (monthsSpan y n (m + 1) + d)) by lia.
    rewrite overflow_loop_next_month by lia.
    rewrite IH by lia. f_equal. lia.
Qed.

Lemma overflow_loop_year (y d : Z) :
  2000 <= y <= 2100 -> 1 <= d ->
  overflow_loop y 1 (yearLength y + d) = overflow_loop (y + 1) 1 d.
Proof.
  intros Hy Hd. unfold yearLength. rewrite monthsSpan_snoc.
  pose proof (monthLength_range y 12 Hy ltac:(lia)).
  change (1 + Z.of_nat 11) with 12. rewrite <- Z.add_assoc.
  rewrite overflow_loop_months by lia.
  by apply overflow_loop_next_year.
Qed.

Lemma yearLength_pos (y : Z) : 2000 <= y <= 2100 -> 0 < yearLength y.
Proof.
  intros Hy. unfold yearLength.
  change (monthsSpan y 12 1) with (monthLength y 1 + monthsSpan y 11 2).
  pose proof (monthLength_range y 1 Hy ltac:(lia)).
  pose proof (monthsSpan_nonneg y 11 2 Hy ltac:(lia) ltac:(lia)). lia.
Qed.

Lemma yearsSpan_nonneg (n : nat) (y : Z) :
  2000 <= y -> y + Z.of_nat n <= 2101 -> 0 <= yearsSpan n y.
Proof.
  revert y. induction n as [|n IH]; intros y Hy Hn; simpl; [lia|].
  pose proof (yearLength_pos y ltac:(lia)).
  specialize (IH (y + 1) ltac:(lia) ltac:(lia)). lia.
Qed.

Lemma overflow_loop_years (n : nat) (y d : Z) :
  2000 <= y -> y + Z.of_nat n <= 2101 -> 1 <= d ->
  overflow_loop y 1 (yearsSpan n y + d) = overflow_loop (y + Z.of_nat n) 1 d.
Proof.
  revert y d. induction n as [|n IH]; intros y d Hy Hn Hd.
  - simpl. f_equal. lia.
  - simpl yearsSpan.
    pose proof (yearsSpan_nonneg n (y + 1) ltac:(lia) ltac:(lia)).
    replace (yearLength y + yearsSpan n (y + 1) + d)
      with (yearLength y + (yearsSpan n (y + 1) + d)) by lia.
    rewrite overflow_loop_year by lia.
    rewrite IH by lia. f_equal. lia.
Qed.

(** The walk from BS 2000/1/1 over the days up to a valid date stops on it. *)
Lemma overflow_loop_daysSinceEpoch (d : NepaliDate) :
  isValidNepaliDate d = true ->
  overflow_loop 2000 1 (1 + daysSinceEpoch d) = Return d.
Proof.
  intros (Hy & Hm & Hd)%isValidNepaliDate_true. destruct d as [y m d]. simpl in *.
  unfold daysSinceEpoch. simpl.
  pose proof (monthsSpan_nonneg y (Z.to_nat (m - 1)) 1 Hy ltac:(lia) ltac:(lia)).
  replace (1 + (yearsSpan (Z.to_nat (y - 2000)) 2000
                + monthsSpan y (Z.to_nat (m - 1)) 1 + (d - 1)))
    with (yearsSpan (Z.to_nat (y - 2000)) 2000
          + (monthsSpan y (Z.to_nat (m - 1)) 1 + d)) by lia.
  rewrite overflow_loop_years by lia.
  replace (2000 + Z.of_nat (Z.to_nat (y - 2000))) with y by lia.
  rewrite overflow_loop_months by lia.
  replace (1 + Z.of_nat (Z.to_nat (m - 1))) with m by lia.
  by apply overflow_loop_stop.
Qed.

(** ** The day count of the reverse converter *)

Lemma row_sum (y : Z) (monthData : list Z) :
  nepaliCalendarData !! y = Some monthData ->
  fold_left (fun sum days => sum + days) monthData 0 = yearLength y.
Proof.
  intros Hy. pose proof Hy as (_ & Hlen & _)%nepaliCalendarData_row.
  unfold yearLength. cbn [monthsSpan]. unfold monthLength. rewrite Hy.
  do 13 (destruct monthData as [|? monthData]; try discriminate Hlen).
  repeat match goal with
  | |- context [js_index ?l ?i] =>
      let r := eval vm_compute in (js_index l i) in change (js_index l i) with r
  end.
  cbn. lia.
Qed.

Lemma completeYears_spec (n : nat) (y t : Z) :
  2000 <= y -> y + Z.of_nat n <= 2101 ->
  completeYears n y t = Return (t + yearsSpan n y).
Proof.
  revert y t. induction n as [|n IH]; intros y t Hy Hn.
  - simpl. f_equal. lia.
  - cbn [completeYears yearsSpan].
    destruct (nepaliCalendarData_lookup y ltac:(lia)) as [monthData E].
    rewrite E, (row_sum y monthData E), IH by lia. f_equal. lia.
Qed.

Lemma completeMonths_spec (y : Z) (monthData : list Z) (n : nat) (m t : Z) :
  nepaliCalendarData !! y = Some monthData ->
  1 <= m -> m + Z.of_nat n <= 13 ->
  completeMonths monthData n m t = Return (t + monthsSpan y n m).
Proof.
  intros Hy. revert m t. induction n as [|n IH]; intros m t Hm Hn.
  - simpl. f_equal. lia.
  - cbn [completeMonths monthsSpan].
    pose proof Hy as (Hyr & Hlen & _)%nepaliCalendarData_row.
    destruct (js_index_row monthData m Hlen ltac:(lia)) as [len El].
    rewrite El, IH by lia.
    rewrite (monthLength_lookup y m monthData len Hy El). f_equal. lia.
Qed.

(** ** The day count is onto and strictly increasing *)

Lemma monthsSpan_app (y : Z) (a b : nat) (m : Z) :
  monthsSpan y (a + b) m = monthsSpan y a m + monthsSpan y b (m + Z.of_nat a).
Proof.
  revert m. induction a as [|a IH]; intros m.
  - replace (m + Z.of_nat 0) with m by lia. simpl. lia.
  - cbn [Nat.add monthsSpan]. rewrite IH.
    replace (m + 1 + Z.of_nat a) with (m + Z.of_nat (S a)) by lia. lia.
Qed.

Lemma yearsSpan_app (a b : nat) (y : Z) :
  yearsSpan (a + b) y = yearsSpan a y + yearsSpan b (y + Z.of_nat a).
Proof.
  revert y. induction a as [|a IH]; intros y.
  - replace (y + Z.of_nat 0) with y by lia. simpl. lia.
  - cbn [Nat.add yearsSpan]. rewrite IH.
    replace (y + 1 + Z.of_nat a) with (y + Z.of_nat (S a)) by lia. lia.
Qed.

Lemma monthsSpan_le (y : Z) (a b : nat) :
  2000 <= y <= 2100 -> (a <= b <= 12)%nat -> monthsSpan y a 1 <= monthsSpan y b 1.
Proof.
  intros Hy Hab. replace b with (a + (b - a))%nat by lia. rewrite monthsSpan_app.
  pose proof (monthsSpan_nonneg y (b - a) (1 + Z.of_nat a) Hy ltac:(lia) ltac:(lia)).
  lia.
Qed.

Lemma yearsSpan_le (a b : nat) :
  (a <= b <= 101)%nat -> yearsSpan a 2000 <= yearsSpan b 2000.
Proof.
  intros Hab. replace b with (a + (b - a))%nat by lia. rewrite yearsSpan_app.
  pose proof (yearsSpan_nonneg (b - a) (2000 + Z.of_nat a) ltac:(lia) ltac:(lia)).
  lia.
Qed.

Lemma yearsSpan_snoc (a : nat) (y : Z) :
  yearsSpan (S a) y = yearsSpan a y + yearLength (y + Z.of_nat a).
Proof.
  replace (S a) with (a + 1)%nat by lia. rewrite yearsSpan_app. simpl. lia.
Qed.

(** A valid date lies within its month, and its month within its year. *)
Lemma within_month (d : NepaliDate) :
  isValidNepaliDate d = true ->
  0 <= monthsSpan (year d) (Z.to_nat (month d - 1)) 1 /\
  monthsSpan (year d) (Z.to_nat (month d - 1)) 1 + (day d - 1)
  < monthsSpan (year d) (Z.to_nat (month d)) 1.
Proof.
  intros (Hy & Hm & Hd)%isValidNepaliDate_true.
  split; [apply monthsSpan_nonneg; lia|].
  replace (Z.to_nat (month d)) with (S (Z.to_nat (month d - 1))) by lia.
  rewrite monthsSpan_snoc.
  replace (1 + Z.of_nat (Z.to_nat (month d - 1))) with (month d) by lia. lia.
Qed.

Lemma within_year (d : NepaliDate) :
  isValidNepaliDate d = true ->
  0 <= monthsSpan (year d) (Z.to_nat (month d - 1)) 1 + (day d - 1)
  < yearLength (year d).
Proof.
  intros Hv. pose proof (within_month d Hv) as [H0 H1].
  pose proof Hv as (Hy & Hm & Hd)%isValidNepaliDate_true.
  pose proof (monthsSpan_le (year d) (Z.to_nat (month d)) 12 Hy ltac:(lia)).
  unfold yearLength. lia.
Qed.

Lemma daysSinceEpoch_range (d : NepaliDate) :
  isValidNepaliDate d = true -> 0 <= daysSinceEpoch d < yearsSpan 101 2000.
Proof.
  intros Hv. pose proof (within_year d Hv).
  pose proof Hv as (Hy & Hm & Hd)%isValidNepaliDate_true.
  pose proof (yearsSpan_nonneg (Z.to_nat (year d - 2000)) 2000 ltac:(lia) ltac:(lia)).
  pose proof (yearsSpan_le (S (Z.to_nat (year d - 2000))) 101 ltac:(lia)) as Hle.
  rewrite yearsSpan_snoc in Hle.
  replace (2000 + Z.of_nat (Z.to_nat (year d - 2000))) with (year d) in Hle by lia.
  unfold daysSinceEpoch. lia.
Qed.

Lemma daysSinceEpoch_lt (d1 d2 : NepaliDate) :
  isValidNepaliDate d1 = true -> isValidNepaliDate d2 = true ->
  precedes d1 d2 -> daysSinceEpoch d1 < daysSinceEpoch d2.
Proof.
  intros Hv1 Hv2 Hlt.
  pose proof (within_year d1 Hv1). pose proof (within_year d2 Hv2).
  pose proof (within_month d1 Hv1) as [? ?]. pose proof (within_month d2 Hv2) as [? ?].
  pose proof Hv1 as (Hy1 & Hm1 & Hd1)%isValidNepaliDate_true.
  pose proof Hv2 as (Hy2 & Hm2 & Hd2)%isValidNepaliDate_true.
  unfold daysSinceEpoch.
  destruct Hlt as [Hy | [Hy [Hm | [Hm Hd]]]].
  - pose proof (yearsSpan_le (S (Z.to_nat (year d1 - 2000)))
                  (Z.to_nat (year d2 - 2000)) ltac:(lia)) as Hle.
    rewrite yearsSpan_snoc in Hle.
    replace (2000 + Z.of_nat (Z.to_nat (year d1 - 2000))) with (year d1) in Hle by lia.
    lia.
  - rewrite Hy in *.
    pose proof (monthsSpan_le (year d2) (Z.to_nat (month d1))
                  (Z.to_nat (month d2 - 1)) Hy2 ltac:(lia)).
    lia.
  - rewrite Hy, Hm in *. lia.
Qed.

Lemma months_decomp (y : Z) (n : nat) (m delta : Z) :
  2000 <= y <= 2100 -> 1 <= m -> m + Z.of_nat n <= 13 ->
  0 <= delta < monthsSpan y n m ->
  exists (j : nat) (dd : Z),
    (j < n)%nat /\ 1 <= dd <= monthLength y (m + Z.of_nat j) /\
    delta = monthsSpan y j m + (dd - 1).
Proof.
  intros Hy. revert m delta. induction n as [|n IH]; intros m delta Hm Hn Hdelta.
  - simpl in Hdelta. lia.
  - cbn [monthsSpan] in Hdelta.
    destruct (Z_lt_le_dec delta (monthLength y m)) as [Hlt|Hge].
    + exists 0%nat, (delta + 1). replace (m + Z.of_nat 0) with m by lia.
      simpl. repeat split; lia.
    + destruct (IH (m + 1) (delta - monthLength y m)) as (j & dd & Hj & Hdd & Heq);
        try lia.
      exists (S j), dd. replace (m + Z.of_nat (S j)) with (m + 1 + Z.of_nat j) by lia.
      cbn [monthsSpan]. repeat split; lia.
Qed.

Lemma years_decomp (n : nat) (y delta : Z) :
  2000 <= y -> y + Z.of_nat n <= 2101 ->
  0 <= delta < yearsSpan n y ->
  exists (a : nat) (rest : Z),
    (a < n)%nat /\ 0 <= rest < yearLength (y + Z.of_nat a) /\
    delta = yearsSpan a y + rest.
Proof.
  revert y delta. induction n as [|n IH]; intros y delta Hy Hn Hdelta.
  - simpl in Hdelta. lia.
  - cbn [yearsSpan] in Hdelta.
    destruct (Z_lt_le_dec delta (yearLength y)) as [Hlt|Hge].
    + exists 0%nat, delta. replace (y + Z.of_nat 0) with y by lia.
      simpl. repeat split; lia.
    + destruct (IH (y + 1) (delta - yearLength y)) as (a & rest & Ha & Hrest & Heq);
        try lia.
      exists (S a), rest. replace (y + Z.of_nat (S a)) with (y + 1 + Z.of_nat a) by lia.
      cbn [yearsSpan]. repeat split; lia.
Qed.

(** Every day count below the table's total is that of a valid date. *)
Lemma daysSinceEpoch_onto (delta : Z) :
  0 <= delta < yearsSpan 101 2000 ->
  exists d, isValidNepaliDate d = true /\ daysSinceEpoch d = delta.
Proof.
  intros Hdelta.
  destruct (years_decomp 101 2000 delta) as (a & rest & Ha & Hrest & Heq); try lia.
  destruct (months_decomp (2000 + Z.of_nat a) 12 1 rest) as (j & dd & Hj & Hdd & Heq');
    try lia; [exact Hrest|].
  exists (mkNepaliDate (2000 + Z.of_nat a) (1 + Z.of_nat j) dd). split.
  - apply isValidNepaliDate_true. simpl. lia.
  - unfold daysSinceEpoch. simpl.
    replace (Z.to_nat (2000 + Z.of_nat a - 2000)) with a by lia.
    replace (Z.to_nat (1 + Z.of_nat j - 1)) with j by lia. lia.
Qed.

Section Properties.

Variable LocalTZA : Z.

Local Notation "'referenceEnglish'" := (Date_ymd LocalTZA 1943 3 14).

Lemma referenceEnglish_time : getTime referenceEnglish = -843177600000 - LocalTZA.
Proof. reflexivity. Qed.

Lemma referenceEnglish_local : LocalTime LocalTZA (getTime referenceEnglish) = -9759 * msPerDay.
Proof. rewrite referenceEnglish_time. unfold LocalTime, msPerDay. lia. Qed.

Lemma MakeDay_date (y m d : Z) : MakeDay y m d = MakeDay y m 1 + (d - 1).
Proof. unfold MakeDay. lia. Qed.

(** [setDate(getDate() + n)] on the reference date moves it by [n] days. *)
Lemma setDate_reference (n : Z) :
  setDate LocalTZA (mkDate (getTime referenceEnglish))
          (getDate LocalTZA (mkDate (getTime referenceEnglish)) + n)
  = mkDate (getTime referenceEnglish + n * msPerDay).
Proof.
  unfold setDate, getDate. cbn [getTime]. rewrite referenceEnglish_local.
  change (YearFromTime (-9759 * msPerDay)) with 1943.
  change (MonthFromTime (-9759 * msPerDay)) with 3.
  change (DateFromTime (-9759 * msPerDay)) with 14.
  change (TimeWithinDay (-9759 * msPerDay)) with 0.
  rewrite MakeDay_date. change (MakeDay 1943 3 1) with (-9772).
  rewrite referenceEnglish_time.
  f_equal. unfold UTC, MakeDate, msPerDay. lia.
Qed.

Lemma nepaliToEnglish_valid (d : NepaliDate) :
  isValidNepaliDate d = true ->
  nepaliToEnglish LocalTZA d
  = Return (mkDate (getTime referenceEnglish + daysSinceEpoch d * msPerDay)).
Proof.
  intros Hv. pose proof Hv as (Hy & Hm & Hd)%isValidNepaliDate_true.
  unfold nepaliToEnglish. rewrite Hv. cbn [negb year month day].
  rewrite completeYears_spec by lia.
  destruct (nepaliCalendarData_lookup (year d) Hy) as [targetYearData E].
  cbn [mbind outcome_bind]. rewrite E.
  rewrite (completeMonths_spec (year d)) by (done || lia).
  cbn [mbind outcome_bind catch_rewrap]. rewrite setDate_reference.
  unfold daysSinceEpoch. by rewrite Z.add_0_l.
Qed.

Lemma nepaliToEnglish_invalid (d : NepaliDate) :
  isValidNepaliDate d = false ->
  fails_with INVALID_NEPALI_DATE (nepaliToEnglish LocalTZA d) = true.
Proof. intros Hv. unfold nepaliToEnglish. rewrite Hv. reflexivity. Qed.

(** ** The forward converter, case by case *)

Lemma englishToNepali_eq (g : Date) :
  englishToNepali LocalTZA g =
  catch_rewrap INVALID_ENGLISH_DATE "Failed to convert English date to Nepali"
    (if diffDays LocalTZA g <? 0 then
       Throw (Coded (createDateConversionError OUT_OF_RANGE
                       "Date is before supported range"
                       (Some "Minimum supported date is April 14, 1943 AD"%string)))
     else overflow_loop 2000 1 (1 + diffDays LocalTZA g)).
Proof. reflexivity. Qed.

Lemma englishToNepali_before (g : Date) :
  diffDays LocalTZA g < 0 ->
  englishToNepali LocalTZA g =
  Throw (Coded (createDateConversionError OUT_OF_RANGE
                  "Date is before supported range"
                  (Some "Minimum supported date is April 14, 1943 AD"%string))).
Proof.
  intros H. rewrite englishToNepali_eq.
  destruct (diffDays LocalTZA g <? 0) eqn:E; [reflexivity|lia].
Qed.

Lemma englishToNepali_in_table (g : Date) (d : NepaliDate) :
  isValidNepaliDate d = true -> diffDays LocalTZA g = daysSinceEpoch d ->
  englishToNepali LocalTZA g = Return d.
Proof.
  intros Hv Hg. pose proof (daysSinceEpoch_range d Hv).
  rewrite englishToNepali_eq, Hg.
  destruct (daysSinceEpoch d <? 0) eqn:E; [lia|].
  by rewrite overflow_loop_daysSinceEpoch.
Qed.

Lemma englishToNepali_beyond (g : Date) :
  totalTableDays <= diffDays LocalTZA g ->
  englishToNepali LocalTZA g =
  Throw (Coded (createDateConversionError OUT_OF_RANGE
                  "Date is beyond supported range"
                  (Some "Maximum supported year is 2100 BS"%string))).
Proof.
  rewrite totalTableDays_yearsSpan. intros H.
  pose proof (yearsSpan_nonneg 101 2000 ltac:(lia) ltac:(lia)).
  rewrite englishToNepali_eq.
  destruct (diffDays LocalTZA g <? 0) eqn:E; [lia|].
  replace (1 + diffDays LocalTZA g)
    with (yearsSpan 101 2000 + (1 + diffDays LocalTZA g - yearsSpan 101 2000)) by lia.
  rewrite overflow_loop_years by lia.
  rewrite overflow_loop_beyond by lia. reflexivity.
Qed.

(** The three cases cover every [Date]. *)
Lemma englishToNepali_cases (g : Date) :
  (diffDays LocalTZA g < 0 /\
   fails_with OUT_OF_RANGE (englishToNepali LocalTZA g) = true) \/
  (totalTableDays <= diffDays LocalTZA g /\
   fails_with OUT_OF_RANGE (englishToNepali LocalTZA g) = true) \/
  (exists d, 0 <= diffDays LocalTZA g < totalTableDays /\
             isValidNepaliDate d = true /\
             daysSinceEpoch d = diffDays LocalTZA g /\
             englishToNepali LocalTZA g = Return d).
Proof.
  destruct (Z_lt_le_dec (diffDays LocalTZA g) 0) as [Hneg|Hpos].
  { left. by rewrite englishToNepali_before. }
  destruct (Z_lt_le_dec (diffDays LocalTZA g) totalTableDays) as [Hin|Hout].
  - right. right.
    destruct (daysSinceEpoch_onto (diffDays LocalTZA g)) as (d & Hv & Hd).
    { rewrite <- totalTableDays_yearsSpan. lia. }
    exists d. repeat split; try done. by apply englishToNepali_in_table.
  - right. left. by rewrite englishToNepali_beyond.
Qed.

(** ** Days of the host calendar *)

Lemma le_Day (D t : Z) : msPerDay * D <= t <-> D <= Day t.
Proof.
  unfold Day, msPerDay. split; intros H.
  - apply Z.div_le_lower_bound; lia.
  - pose proof (Z.mul_div_le t 86400000 ltac:(lia)). lia.
Qed.

Lemma YearFromTime_Day (t1 t2 : Z) : Day t1 = Day t2 -> YearFromTime t1 = YearFromTime t2.
Proof.
  intros H. unfold YearFromTime, TimeFromYear. rewrite H.
  set (y0 := 1970 + Day t2 * 400 / 146097).
  assert (Hle : forall D, (msPerDay * D <=? t1) = (msPerDay * D <=? t2)).
  { intros D. destruct (msPerDay * D <=? t2) eqn:E.
    - apply Z.leb_le. apply le_Day. rewrite H. apply le_Day. lia.
    - apply Z.leb_gt. apply Z.leb_gt in E.
      destruct (Z_le_gt_dec (msPerDay * D) t1) as [Hc|Hc]; [|lia].
      apply le_Day in Hc. rewrite H in Hc. apply le_Day in Hc. lia. }
  rewrite Hle. rewrite !Z.ltb_antisym, Hle. reflexivity.
Qed.

Lemma sameDate_of_Day (g1 g2 : Date) :
  localDay LocalTZA g1 = localDay LocalTZA g2 -> sameDate LocalTZA g1 g2.
Proof.
  unfold localDay, sameDate, getFullYear, getMonth, getDate. intros H.
  pose proof (YearFromTime_Day _ _ H) as Hy.
  assert (Hd : DayWithinYear (LocalTime LocalTZA (getTime g1))
               = DayWithinYear (LocalTime LocalTZA (getTime g2)))
    by (unfold DayWithinYear; by rewrite H, Hy).
  assert (Hl : InLeapYear (LocalTime LocalTZA (getTime g1))
               = InLeapYear (LocalTime LocalTZA (getTime g2)))
    by (unfold InLeapYear; by rewrite Hy).
  assert (Hm : MonthFromTime (LocalTime LocalTZA (getTime g1))
               = MonthFromTime (LocalTime LocalTZA (getTime g2)))
    by (unfold MonthFromTime; by rewrite Hd, Hl).
  split; [done|]. split; [done|].
  unfold DateFromTime. by rewrite Hd, Hl, Hm.
Qed.

Lemma diffDays_localDay (g : Date) : diffDays LocalTZA g = localDay LocalTZA g + 9759.
Proof.
  unfold diffDays, localDay, Day, LocalTime. rewrite referenceEnglish_time.
  replace (getTime g - (-843177600000 - LocalTZA))
    with (getTime g + LocalTZA + 9759 * msPerDay) by (unfold msPerDay; lia).
  apply Z.div_add. unfold msPerDay. lia.
Qed.

Lemma localDay_shift (n : Z) :
  localDay LocalTZA (mkDate (getTime referenceEnglish + n * msPerDay)) = n - 9759.
Proof.
  unfold localDay, Day, LocalTime. cbn [getTime]. rewrite referenceEnglish_time.
  replace (-843177600000 - LocalTZA + n * msPerDay + LocalTZA)
    with ((n - 9759) * msPerDay) by (unfold msPerDay; lia).
  apply Z.div_mul. unfold msPerDay. lia.
Qed.

Lemma diffDays_shift (n : Z) :
  diffDays LocalTZA (mkDate (getTime referenceEnglish + n * msPerDay)) = n.
Proof. rewrite diffDays_localDay, localDay_shift. lia. Qed.

(** ** Round trips and the epoch *)

(** Round trip A in a zone of one offset [LocalTZA]: a valid Nepali date
    converted by [nepaliToEnglish] and back by [englishToNepali] is the date
    itself.  (For a zone whose offset changes, see the last part.) *)
Theorem roundtrip_nepali (d : NepaliDate) :
  isValidNepaliDate d = true ->
  exists g, nepaliToEnglish LocalTZA d = Return g /\
            englishToNepali LocalTZA g = Return d.
Proof.
  intros Hv. eexists. split; [by apply nepaliToEnglish_valid|].
  apply englishToNepali_in_table; [done|]. apply diffDays_shift.
Qed.

Lemma diffDays_reference : diffDays LocalTZA referenceEnglish = 0.
Proof. unfold diffDays. by rewrite Z.sub_diag. Qed.

Lemma diffDays_eve : diffDays LocalTZA (Date_ymd LocalTZA 1943 3 13) = -1.
Proof.
  rewrite diffDays_localDay. unfold localDay, LocalTime, Date_ymd, UTC. cbn [getTime].
  rewrite Z.sub_add. reflexivity.
Qed.

(** C2 (epoch boundary): 14 April 1943 converts to BS 2000/1/1, and
    13 April 1943, the day before the anchor, fails with OUT_OF_RANGE. *)
Theorem epoch_boundary :
  englishToNepali LocalTZA (Date_ymd LocalTZA 1943 3 14)
  = Return (mkNepaliDate 2000 1 1) /\
  fails_with OUT_OF_RANGE (englishToNepali LocalTZA (Date_ymd LocalTZA 1943 3 13))
  = true.
Proof.
  split.
  - apply englishToNepali_in_table; [by vm_compute|].
    rewrite diffDays_reference. by vm_compute.
  - rewrite englishToNepali_before; [done|]. rewrite diffDays_eve. lia.
Qed.

(** Round trip B in a zone of one offset [LocalTZA]: a Gregorian date from
    the epoch to the date of the last day of BS 2100 converts to a Nepali date
    that converts back to the same calendar date. *)
Theorem roundtrip_english (g : Date) (lastDay : Z) (last : Date) :
  getDaysInNepaliMonth 2100 12 = Return lastDay ->
  nepaliToEnglish LocalTZA (mkNepaliDate 2100 12 lastDay) = Return last ->
  localDay LocalTZA (Date_ymd LocalTZA 1943 3 14) <= localDay LocalTZA g ->
  localDay LocalTZA g <= localDay LocalTZA last ->
  exists d g', englishToNepali LocalTZA g = Return d /\
               nepaliToEnglish LocalTZA d = Return g' /\
               sameDate LocalTZA g' g /\
               localDay LocalTZA g' = localDay LocalTZA g.
Proof.
  intros Hlast Hconv Hlo Hhi.
  assert (lastDay = 30) as -> by (vm_compute in Hlast; congruence).
  rewrite nepaliToEnglish_valid in Hconv by (by vm_compute).
  injection Hconv as <-. rewrite localDay_shift in Hhi.
  change (daysSinceEpoch (mkNepaliDate 2100 12 30)) with 36893 in Hhi.
  pose proof (localDay_shift 0) as Href. rewrite Z.mul_0_l, Z.add_0_r in Href.
  change (mkDate (getTime referenceEnglish)) with referenceEnglish in Href.
  rewrite Href in Hlo. pose proof (diffDays_localDay g) as Hg.
  destruct (englishToNepali_cases g) as [[Hneg _]|[[Hout _]|(d & Hin & Hv & Hd & Hto)]].
  - lia.
  - rewrite totalTableDays_value in Hout. lia.
  - exists d. eexists. split; [done|]. split; [by apply nepaliToEnglish_valid|].
    assert (Hday : localDay LocalTZA
                     (mkDate (getTime referenceEnglish + daysSinceEpoch d * msPerDay))
                   = localDay LocalTZA g) by (rewrite localDay_shift; lia).
    split; [by apply sameDate_of_Day | done].
Qed.

(** ** Errors of the converters *)

(** C7 (eager validation): [nepaliToEnglish] fails with INVALID_NEPALI_DATE
    exactly on the dates the validator rejects, with the error the validity
    check raises; on a valid date it returns a Gregorian date and does not
    fail with OUT_OF_RANGE. *)
Theorem nepaliToEnglish_eager_validation (d : NepaliDate) :
  (fails_with INVALID_NEPALI_DATE (nepaliToEnglish LocalTZA d) = true
   <-> isValidNepaliDate d = false) /\
  (isValidNepaliDate d = false ->
   exists det,
     nepaliToEnglish LocalTZA d =
     Throw (Coded (createDateConversionError INVALID_NEPALI_DATE
                     "Invalid Nepali date provided" det))) /\
  (isValidNepaliDate d = true ->
   (exists g, nepaliToEnglish LocalTZA d = Return g) /\
   fails_with OUT_OF_RANGE (nepaliToEnglish LocalTZA d) = false).
Proof.
  split; [|split].
  - split.
    + destruct (isValidNepaliDate d) eqn:Hv; [|done].
      by rewrite nepaliToEnglish_valid.
    + apply nepaliToEnglish_invalid.
  - intros Hv. unfold nepaliToEnglish. rewrite Hv. cbn [negb catch_rewrap]. eauto.
  - intros Hv. rewrite nepaliToEnglish_valid by done. eauto.
Qed.

(** The upper bound of the forward walk, for a [Date] with an integer time
    value: an offset from the epoch beyond the days of the table fails with
    OUT_OF_RANGE, and every date returned is valid.  (For the Invalid Date,
    see the last part.) *)
Theorem englishToNepali_upper_bound :
  (forall g, 0 <= diffDays LocalTZA g -> totalTableDays < diffDays LocalTZA g ->
             fails_with OUT_OF_RANGE (englishToNepali LocalTZA g) = true) /\
  (forall g d, englishToNepali LocalTZA g = Return d -> isValidNepaliDate d = true).
Proof.
  split.
  - intros g _ H. rewrite englishToNepali_beyond; [done|lia].
  - intros g d Hg.
    destruct (englishToNepali_cases g) as [[_ Hf]|[[_ Hf]|(d' & _ & Hv & _ & Hto)]].
    + by rewrite Hg in Hf.
    + by rewrite Hg in Hf.
    + congruence.
Qed.

(** C9 (fallback): [getCurrentNepaliDate] returns a date at every instant;
    it is BS 2081/1/1 when the forward conversion of the instant throws, and
    the conversion's result otherwise. *)
Theorem getCurrentNepaliDate_never_throws (now : Date) :
  exists d, getCurrentNepaliDate LocalTZA now = Return d /\
    ((exists e, englishToNepali LocalTZA now = Throw e) -> d = mkNepaliDate 2081 1 1) /\
    (forall d', englishToNepali LocalTZA now = Return d' -> d = d').
Proof.
  unfold getCurrentNepaliDate.
  destruct (englishToNepali_cases now) as [[_ Hf]|[[_ Hf]|(d & _ & _ & _ & Hto)]].
  - destruct (englishToNepali LocalTZA now) as [|e|]; try done.
    exists (mkNepaliDate 2081 1 1). repeat split; done.
  - destruct (englishToNepali LocalTZA now) as [|e|]; try done.
    exists (mkNepaliDate 2081 1 1). repeat split; done.
  - rewrite Hto. exists d. split; [done|]. split.
    + intros [e He]. done.
    + congruence.
Qed.


End Properties.

(** ** Validator and day-count lookup *)

Lemma getDaysInNepaliMonth_in_table (y m : Z) :
  2000 <= y <= 2100 -> 1 <= m <= 12 ->
  getDaysInNepaliMonth y m = Return (monthLength y m).
Proof.
  intros Hy Hm. unfold getDaysInNepaliMonth.
  destruct (monthLength_Some y m Hy Hm) as (monthData & -> & ->).
  destruct ((m <? 1) || (m >? 12)) eqn:E; [lia|done].
Qed.

(** C5 (validator): [isValidNepaliDate] is a total boolean function; it is
    false exactly when the year is outside 2000..2100, or the month is outside
    1..12, or the year has no table entry, or the day is outside 1..the
    length of the month; with the four boundary dates of the specification. *)
Theorem isValidNepaliDate_contract :
  (forall d : NepaliDate,
     isValidNepaliDate d = false <->
     (year d < 2000 \/ year d > 2100) \/
     (month d < 1 \/ month d > 12) \/
     nepaliCalendarData !! year d = None \/
     ~ (exists n, getDaysInNepaliMonth (year d) (month d) = Return n /\
                  1 <= day d <= n)) /\
  isValidNepaliDate (mkNepaliDate 2000 1 30) = true /\
  isValidNepaliDate (mkNepaliDate 2000 1 31) = false /\
  isValidNepaliDate (mkNepaliDate 1999 1 1) = false /\
  isValidNepaliDate (mkNepaliDate 2101 1 1) = false.
Proof.
  split; [|by vm_compute].
  intros d. split.
  - intros Hf.
    destruct (decide (2000 <= year d <= 2100)) as [Hy|]; [|left; lia].
    destruct (decide (1 <= month d <= 12)) as [Hm|]; [|right; left; lia].
    right. right. right. intros (n & Hn & Hday).
    rewrite getDaysInNepaliMonth_in_table in Hn by done. injection Hn as <-.
    assert (isValidNepaliDate d = true) by (apply isValidNepaliDate_true; lia).
    congruence.
  - intros H. destruct (isValidNepaliDate d) eqn:Hv; [|done]. exfalso.
    apply isValidNepaliDate_true in Hv as (Hy & Hm & Hd).
    destruct H as [H|[H|[H|H]]]; try lia.
    + destruct (nepaliCalendarData_lookup (year d) Hy) as [monthData E]. congruence.
    + apply H. exists (monthLength (year d) (month d)).
      by rewrite getDaysInNepaliMonth_in_table.
Qed.


(** ** Formatter *)

(** The long form of BS 2081/8/15 is not written with the name of month 7. *)
Lemma formatNepaliDate_long_not_kartik :
  ~ (formatNepaliDate (mkNepaliDate 2081 8 15) short = "2081/08/15"%string /\
     formatNepaliDate (mkNepaliDate 2081 8 15) long = "15 कार्तिक 2081"%string).
Proof. intros [_ H]. vm_compute in H. discriminate H. Qed.

(** C4 (formatting), what the code returns: the short form of BS 2081/8/15
    is "2081/08/15"; its long form is "15 मंसिर 2081", where the component's
    test and the comment beside its default date expect the name of month 7,
    "15 कार्तिक 2081".  The short form is year/month/day with month and day
    padded to two digits, and the long form is day, the month-name table's
    entry at [month - 1], year. *)
Theorem formatNepaliDate_examples :
  formatNepaliDate (mkNepaliDate 2081 8 15) short = "2081/08/15"%string /\
  formatNepaliDate (mkNepaliDate 2081 8 15) long = "15 मंसिर 2081"%string /\
  length nepaliMonthNames = 12%nat /\
  (forall d : NepaliDate,
     formatNepaliDate d short =
     String.concat "" [Number_toString (year d); "/";
                       padStart (Number_toString (month d)) 2 "0"; "/";
                       padStart (Number_toString (day d)) 2 "0"]%string) /\
  (forall (d : NepaliDate) (monthName : string),
     js_index nepaliMonthNames (month d - 1) = Some monthName ->
     formatNepaliDate d long =
     String.concat "" [Number_toString (day d); " "; monthName; " ";
                       Number_toString (year d)]%string).
Proof.
  split; [by vm_compute|]. split; [by vm_compute|]. split; [done|]. split.
  - by intros [y m d].
  - intros [y m d] monthName H. simpl in H. unfold formatNepaliDate. by rewrite H.
Qed.

(** ** The theorems at concrete dates *)


Lemma nepaliToEnglish_eager_validation_witness :
  (exists det,
     nepaliToEnglish 20700000 (mkNepaliDate 2100 12 31) =
     Throw (Coded (createDateConversionError INVALID_NEPALI_DATE
                     "Invalid Nepali date provided" det))) /\
  ((exists g, nepaliToEnglish 20700000 (mkNepaliDate 2100 12 30) = Return g) /\
   fails_with OUT_OF_RANGE (nepaliToEnglish 20700000 (mkNepaliDate 2100 12 30)) = false).
Proof.
  split.
  - apply (proj1 (proj2 (nepaliToEnglish_eager_validation 20700000
                           (mkNepaliDate 2100 12 31)))).
    vm_compute. reflexivity.
  - apply (proj2 (proj2 (nepaliToEnglish_eager_validation 20700000
                           (mkNepaliDate 2100 12 30)))).
    vm_compute. reflexivity.
Defined.


Lemma formatNepaliDate_examples_witness :
  formatNepaliDate (mkNepaliDate 2081 7 1) long =
  String.concat "" [Number_toString 1; " "; "कार्तिक"; " "; Number_toString 2081]%string.
Proof.
  apply (proj2 (proj2 (proj2 (proj2 formatNepaliDate_examples)))
           (mkNepaliDate 2081 7 1) "कार्तिक"%string).
  vm_compute. reflexivity.
Defined.

(** * Further properties of the code *)

(** X1 (table): the table has a row exactly for the years 2000 to 2100, and
    every row has 12 month lengths, each from 29 to 32. *)
Theorem nepaliCalendarData_invariant (y : Z) :
  (is_Some (nepaliCalendarData !! y) <-> 2000 <= y <= 2100) /\
  (forall monthData : list Z,
     nepaliCalendarData !! y = Some monthData ->
     length monthData = 12%nat /\ Forall (fun len => 29 <= len <= 32) monthData).
Proof.
  split.
  - split.
    + intros [monthData E]. by apply nepaliCalendarData_row in E as (? & _).
    + intros Hy. destruct (nepaliCalendarData_lookup y Hy) as [monthData E]. by exists monthData.
  - intros monthData E. apply nepaliCalendarData_row in E as (_ & Hlen & Hall).
    split; [done|]. apply Forall_lookup. intros i len Hi. by apply (Hall i).
Qed.

(** X5 (formatter off the table): the formatter validates nothing: for every
    date whose month is outside 1..12 the long form is the day, the text
    "undefined" and the year, and the short form is, as for every date, year,
    month and day as they stand, month and day padded to two digits. *)
Theorem formatNepaliDate_unchecked (d : NepaliDate) :
  ~ (1 <= month d <= 12) ->
  formatNepaliDate d long =
  String.concat "" [Number_toString (day d); " "; "undefined"; " ";
                    Number_toString (year d)]%string /\
  formatNepaliDate d short =
  String.concat "" [Number_toString (year d); "/";
                    padStart (Number_toString (month d)) 2 "0"; "/";
                    padStart (Number_toString (day d)) 2 "0"]%string.
Proof.
  intros Hm. destruct d as [y m k]. cbn [year month day] in *. split; [|done].
  unfold formatNepaliDate.
  assert (js_index nepaliMonthNames (m - 1) = None) as ->; [|done].
  unfold js_index. destruct (m - 1 <? 0) eqn:E; [done|].
  apply lookup_ge_None_2. change (length nepaliMonthNames) with 12%nat. lia.
Qed.

Lemma formatNepaliDate_unchecked_witness :
  formatNepaliDate (mkNepaliDate 2081 13 1) long = "1 undefined 2081"%string /\
  formatNepaliDate (mkNepaliDate 2081 13 1) short = "2081/13/01"%string.
Proof.
  pose proof (formatNepaliDate_unchecked (mkNepaliDate 2081 13 1)
                ltac:(simpl; lia)) as H.
  vm_compute in H. exact H.
Defined.

(** * The calendar component: properties *)

(** ** Month navigation *)

Ltac nav_cases :=
  unfold navigateMonth, prevDisabled, nextDisabled;
  repeat match goal with
         | |- context [if ?b then _ else _] => destruct b eqn:?
         end;
  cbn [year month day fst snd] in *.

Lemma navigateMonth_isValid (direction : Direction) (currentMonth : NepaliDate) :
  isValidNepaliDate currentMonth = true ->
  isValidNepaliDate (navigateMonth direction currentMonth) = true.
Proof.
  intros Hv. pose proof Hv as (Hy & Hm & Hd)%isValidNepaliDate_true.
  destruct direction; nav_cases; try done;
    apply isValidNepaliDate_true; cbn [year month day];
    match goal with
    | |- _ /\ _ /\ 1 <= 1 <= monthLength ?y ?m =>
        pose proof (monthLength_range y m ltac:(lia) ltac:(lia)); lia
    end.
Qed.

(** X6 (navigation keeps a valid month): from a valid date, the previous and
    the next button both lead to a valid date. *)
Theorem navigateMonth_valid (direction : Direction) (currentMonth : NepaliDate) :
  isValidNepaliDate currentMonth = true ->
  isValidNepaliDate (navigateMonth direction currentMonth) = true.
Proof. apply navigateMonth_isValid. Qed.

(** X7 (disabled buttons): on a valid month, the previous button is disabled
    exactly when going back would change nothing, and the next button exactly
    when going forward would change nothing. *)
Theorem navigation_disabled_iff_stuck (currentMonth : NepaliDate) :
  isValidNepaliDate currentMonth = true ->
  (prevDisabled currentMonth = true <-> navigateMonth prev currentMonth = currentMonth) /\
  (nextDisabled currentMonth = true <-> navigateMonth next currentMonth = currentMonth).
Proof.
  intros (Hy & Hm & Hd)%isValidNepaliDate_true. destruct currentMonth as [y m d].
  cbn [year month day] in *.
  split; nav_cases; (split; [try done; lia | try done; intros [=]; lia]).
Qed.

(** X8 (there and back): where the next button is enabled, next and then
    previous lead to the first day of the month shown; likewise previous and
    then next. *)
Theorem navigateMonth_there_and_back (currentMonth : NepaliDate) :
  isValidNepaliDate currentMonth = true ->
  (nextDisabled currentMonth = false ->
   navigateMonth prev (navigateMonth next currentMonth)
   = mkNepaliDate (year currentMonth) (month currentMonth) 1) /\
  (prevDisabled currentMonth = false ->
   navigateMonth next (navigateMonth prev currentMonth)
   = mkNepaliDate (year currentMonth) (month currentMonth) 1).
Proof.
  intros (Hy & Hm & Hd)%isValidNepaliDate_true. destruct currentMonth as [y m d].
  cbn [year month day] in *.
  split; intros Hen; unfold prevDisabled, nextDisabled in Hen; cbn [year month] in Hen;
    nav_cases; try lia; f_equal; lia.
Qed.

Lemma daysSinceEpoch_next_month (y m d : Z) :
  2000 <= y <= 2100 -> 1 <= m <= 12 -> ~ (y = 2100 /\ m = 12) ->
  daysSinceEpoch (navigateMonth next (mkNepaliDate y m d))
  = daysSinceEpoch (mkNepaliDate y m (monthLength y m)) + 1.
Proof.
  intros Hy Hm Hend. unfold daysSinceEpoch. nav_cases; try lia.
  - assert (m = 12) as -> by lia.
    replace (Z.to_nat (y + 1 - 2000)) with (S (Z.to_nat (y - 2000))) by lia.
    rewrite yearsSpan_snoc.
    replace (2000 + Z.of_nat (Z.to_nat (y - 2000))) with y by lia.
    unfold yearLength. rewrite (monthsSpan_snoc y 11 1).
    change (Z.to_nat (12 - 1)) with 11%nat. change (Z.to_nat (1 - 1)) with 0%nat.
    change (1 + Z.of_nat 11) with 12. cbn [monthsSpan]. lia.
  - replace (Z.to_nat (m + 1 - 1)) with (S (Z.to_nat (m - 1))) by lia.
    rewrite monthsSpan_snoc.
    replace (1 + Z.of_nat (Z.to_nat (m - 1))) with m by lia. lia.
Qed.


Lemma precedes_trichotomy (d1 d2 : NepaliDate) :
  precedes d1 d2 \/ d1 = d2 \/ precedes d2 d1.
Proof.
  destruct d1 as [y1 m1 k1], d2 as [y2 m2 k2]. unfold precedes. cbn [year month day].
  destruct (Z.lt_trichotomy y1 y2) as [?|[->|?]]; [lia| |lia].
  destruct (Z.lt_trichotomy m1 m2) as [?|[->|?]]; [lia| |lia].
  destruct (Z.lt_trichotomy k1 k2) as [?|[->|?]]; [lia| |lia].
  right. by left.
Qed.

Lemma daysSinceEpoch_le (d1 d2 : NepaliDate) :
  isValidNepaliDate d1 = true -> isValidNepaliDate d2 = true ->
  (daysSinceEpoch d1 <= daysSinceEpoch d2 <-> ~ precedes d2 d1).
Proof.
  intros Hv1 Hv2. split.
  - intros Hle Hlt. pose proof (daysSinceEpoch_lt d2 d1 Hv2 Hv1 Hlt). lia.
  - intros Hn. destruct (precedes_trichotomy d1 d2) as [Hlt|[->|Hlt]]; [|lia|done].
    pose proof (daysSinceEpoch_lt d1 d2 Hv1 Hv2 Hlt). lia.
Qed.

Section PickerProperties.

Variable LocalTZA : Z.

Local Notation "'referenceEnglish'" := (Date_ymd LocalTZA 1943 3 14).



(** ** The current date and the initial month *)

(** X11 (current date is valid): at every instant [getCurrentNepaliDate]
    returns a date the validator accepts. *)
Theorem getCurrentNepaliDate_valid (now : Date) :
  exists d, getCurrentNepaliDate LocalTZA now = Return d /\ isValidNepaliDate d = true.
Proof.
  unfold getCurrentNepaliDate.
  destruct (englishToNepali_cases LocalTZA now)
    as [[_ Hf]|[[_ Hf]|(d & _ & Hv & _ & Hto)]].
  - destruct (englishToNepali LocalTZA now) as [|e|]; try done.
    by exists (mkNepaliDate 2081 1 1).
  - destruct (englishToNepali LocalTZA now) as [|e|]; try done.
    by exists (mkNepaliDate 2081 1 1).
  - rewrite Hto. by exists d.
Qed.

(** X12 (initial month): the calendar opens on a valid date: the selected
    date when there is one and it is valid, and otherwise the date
    [getCurrentNepaliDate] returns; the built-in default 2081/8/15 is never
    used. *)
Theorem initialMonth_valid (selected : option NepaliDate) (now : Date) :
  exists d,
    initialMonth LocalTZA selected now = Return d /\
    isValidNepaliDate d = true /\
    (selected = Some d \/
     ((forall s, selected = Some s -> isValidNepaliDate s = false) /\
      getCurrentNepaliDate LocalTZA now = Return d)).
Proof.
  destruct (getCurrentNepaliDate_valid now) as (c & Hc & Hcv).
  unfold initialMonth. rewrite Hc, Hcv.
  destruct selected as [s|].
  - destruct (isValidNepaliDate s) eqn:Hs.
    + exists s. eauto.
    + exists c. repeat split; try done. right. split; [|done]. by intros ? [= <-].
  - exists c. repeat split; try done. right. by split.
Qed.

(** ** The grid of the month *)

Lemma pushNulls_eq (n : nat) (cells : list (option NepaliDate)) :
  pushNulls n cells = cells ++ replicate n None.
Proof.
  revert cells. induction n as [|n IH]; intros cells; cbn [pushNulls replicate].
  - by rewrite app_nil_r.
  - rewrite IH, <- app_assoc. done.
Qed.

Lemma pushDays_eq (cm : NepaliDate) (n : nat) (d : Z) (cells : list (option NepaliDate)) :
  pushDays cm n d cells
  = cells ++ ((fun k => Some (mkNepaliDate (year cm) (month cm) k)) <$> seqZ d (Z.of_nat n)).
Proof.
  revert d cells. induction n as [|n IH]; intros d cells; cbn [pushDays].
  - by rewrite app_nil_r.
  - rewrite IH, <- app_assoc. f_equal.
    rewrite (seqZ_cons d (Z.of_nat (S n))) by lia.
    replace (Z.pred (Z.of_nat (S n))) with (Z.of_nat n) by lia. done.
Qed.

Lemma getDay_shift (n : Z) :
  getDay LocalTZA (mkDate (getTime referenceEnglish + n * msPerDay)) = (n - 9755) mod 7.
Proof.
  pose proof (localDay_shift LocalTZA n) as H. unfold localDay in H.
  unfold getDay, WeekDay. rewrite H. f_equal. lia.
Qed.

(** The first cell of the month, as a column of the grid. *)
Definition firstColumn (y m : Z) : nat :=
  Z.to_nat ((daysSinceEpoch (mkNepaliDate y m 1) - 9755) mod 7).

Lemma first_of_month_valid (y m : Z) :
  2000 <= y <= 2100 -> 1 <= m <= 12 -> isValidNepaliDate (mkNepaliDate y m 1) = true.
Proof.
  intros Hy Hm. apply isValidNepaliDate_true. cbn [year month day].
  pose proof (monthLength_range y m Hy Hm). lia.
Qed.

Lemma calendarData_in_table (cm : NepaliDate) :
  2000 <= year cm <= 2100 -> 1 <= month cm <= 12 ->
  calendarData LocalTZA cm
  = Return (mkCalendarData
              (replicate (firstColumn (year cm) (month cm)) None
               ++ ((fun k => Some (mkNepaliDate (year cm) (month cm) k))
                     <$> seqZ 1 (monthLength (year cm) (month cm))))
              (monthLength (year cm) (month cm)),
            None).
Proof.
  intros Hy Hm. pose proof (monthLength_range _ _ Hy Hm).
  unfold calendarData.
  rewrite getDaysInNepaliMonth_in_table by done. cbn [mbind outcome_bind].
  rewrite nepaliToEnglish_valid by (by apply first_of_month_valid).
  cbn [mbind outcome_bind]. rewrite getDay_shift, pushDays_eq, pushNulls_eq.
  rewrite Z2Nat.id by lia. done.
Qed.

Lemma calendarData_off_table (cm : NepaliDate) :
  ~ (2000 <= year cm <= 2100 /\ 1 <= month cm <= 12) ->
  calendarData LocalTZA cm
  = Return (mkCalendarData [] 0, Some "Invalid year or month"%string).
Proof.
  intros Hout. unfold calendarData, getDaysInNepaliMonth.
  destruct (nepaliCalendarData !! year cm) as [monthData|] eqn:E; [|done].
  apply nepaliCalendarData_row in E as (Hy & _).
  destruct ((month cm <? 1) || (month cm >? 12)) eqn:Em; [done|lia].
Qed.

Lemma calendar_cell (cm : NepaliDate) (i : nat) (d : NepaliDate) :
  (replicate (firstColumn (year cm) (month cm)) None
   ++ ((fun k => Some (mkNepaliDate (year cm) (month cm) k))
         <$> seqZ 1 (monthLength (year cm) (month cm)))) !! i = Some (Some d) ->
  exists k, 1 <= k <= monthLength (year cm) (month cm) /\
            d = mkNepaliDate (year cm) (month cm) k /\
            Z.of_nat i = Z.of_nat (firstColumn (year cm) (month cm)) + (k - 1).
Proof.
  intros Hi. apply lookup_app_Some in Hi as [Hi|[Hge Hi]].
  - apply lookup_replicate in Hi as [? _]. done.
  - rewrite length_replicate in Hge, Hi.
    rewrite list_lookup_fmap in Hi.
    destruct (seqZ 1 (monthLength (year cm) (month cm))
                !! (i - firstColumn (year cm) (month cm))%nat) as [k|] eqn:Ek; [|done].
    apply lookup_seqZ in Ek as [-> Hlt]. injection Hi as <-.
    eexists. split; [|split; [done|]]; lia.
Qed.

(** X13 (the grid): for a year of the table and a month from 1 to 12,
    whatever the day of [currentMonth], [calendarData] sets no error and
    returns at most six empty cells followed by every day of the month
    once, in order; each is a valid date and the grid has at most 38 cells. *)
Theorem calendarData_grid (currentMonth : NepaliDate) :
  2000 <= year currentMonth <= 2100 -> 1 <= month currentMonth <= 12 ->
  exists (n : Z) (blanks : nat),
    getDaysInNepaliMonth (year currentMonth) (month currentMonth) = Return n /\
    calendarData LocalTZA currentMonth
    = Return (mkCalendarData
                (replicate blanks None
                 ++ ((fun k => Some (mkNepaliDate (year currentMonth) (month currentMonth) k))
                       <$> seqZ 1 n))
                n, None) /\
    (blanks <= 6)%nat /\ (blanks + Z.to_nat n <= 38)%nat /\
    (forall k, 1 <= k <= n ->
       isValidNepaliDate (mkNepaliDate (year currentMonth) (month currentMonth) k) = true).
Proof.
  intros Hy Hm. pose proof (monthLength_range _ _ Hy Hm).
  exists (monthLength (year currentMonth) (month currentMonth)),
         (firstColumn (year currentMonth) (month currentMonth)).
  split; [by apply getDaysInNepaliMonth_in_table|].
  split; [by apply calendarData_in_table|].
  assert ((firstColumn (year currentMonth) (month currentMonth) <= 6)%nat).
  { unfold firstColumn.
    pose proof (Z.mod_pos_bound
      (daysSinceEpoch (mkNepaliDate (year currentMonth) (month currentMonth) 1) - 9755) 7).
    lia. }
  split; [done|]. split; [lia|].
  intros k Hk. apply isValidNepaliDate_true. cbn [year month day]. lia.
Qed.

Lemma calendarData_cell (currentMonth : NepaliDate)
    (cd : CalendarData) (err : option string) (i : nat) (d : NepaliDate) :
  calendarData LocalTZA currentMonth = Return (cd, err) ->
  days cd !! i = Some (Some d) ->
  year d = year currentMonth /\ month d = month currentMonth /\
  isValidNepaliDate d = true /\
  exists g, nepaliToEnglish LocalTZA d = Return g /\
            getDay LocalTZA g = Z.of_nat i mod 7.
Proof.
  intros Hcd Hi.
  destruct (decide (2000 <= year currentMonth <= 2100 /\ 1 <= month currentMonth <= 12))
    as [[Hy Hm]|Hout].
  - rewrite calendarData_in_table in Hcd by done. injection Hcd as <- <-.
    cbn [days] in Hi. apply calendar_cell in Hi as (k & Hk & -> & Hcol).
    cbn [year month].
    assert (Hv : isValidNepaliDate (mkNepaliDate (year currentMonth) (month currentMonth) k)
                 = true) by (apply isValidNepaliDate_true; cbn [year month day]; lia).
    do 3 (split; [done|]). eexists. split; [by apply nepaliToEnglish_valid|].
    rewrite getDay_shift, Hcol. unfold firstColumn.
    rewrite Z2Nat.id by (apply Z.mod_pos_bound; lia).
    rewrite Z.add_mod_idemp_l by lia. f_equal.
    unfold daysSinceEpoch. cbn [year month day]. lia.
  - rewrite calendarData_off_table in Hcd by done. injection Hcd as <- <-.
    cbn [days] in Hi. by rewrite lookup_nil in Hi.
Qed.


(** X15 (no grid off the table): for a year without a table entry or a
    month outside 1..12, [calendarData] returns no cells, a month length of
    0, and sets the error to the message of [getDaysInNepaliMonth]. *)
Theorem calendarData_error (currentMonth : NepaliDate) :
  ~ (2000 <= year currentMonth <= 2100 /\ 1 <= month currentMonth <= 12) ->
  calendarData LocalTZA currentMonth
  = Return (mkCalendarData [] 0, Some "Invalid year or month"%string) /\
  fails_with INVALID_NEPALI_DATE
    (getDaysInNepaliMonth (year currentMonth) (month currentMonth)) = true.
Proof.
  intros Hout. split; [by apply calendarData_off_table|].
  unfold getDaysInNepaliMonth.
  destruct (nepaliCalendarData !! year currentMonth) as [monthData|] eqn:E; [|done].
  apply nepaliCalendarData_row in E as (Hy & _).
  destruct ((month currentMonth <? 1) || (month currentMonth >? 12)) eqn:Em; [done|lia].
Qed.

(** ** Selecting and focusing a day *)

(** X16 (the grid's days can be selected): [handleDateSelect] accepts every
    day [calendarData] returns: it stores the day, closes the popover and
    calls [onValueChange] with it, and never [onError]. *)
Theorem handleDateSelect_accepts_grid (currentMonth : NepaliDate)
    (cd : CalendarData) (err : option string) (st : PickerState) (d : NepaliDate) :
  calendarData LocalTZA currentMonth = Return (cd, err) ->
  Some d ∈ days cd ->
  handleDateSelect st d = (mkPickerState (Some d) false, [onValueChange (Some d)]).
Proof.
  intros Hcd [i Hi]%list_elem_of_lookup_1.
  destruct (calendarData_cell currentMonth cd err i d Hcd Hi) as (_ & _ & Hv & _).
  unfold handleDateSelect. by rewrite Hv.
Qed.

(** X18 (one day in the tab order): at most one day of the grid has
    [tabIndex] 0; with no selected date it is day 1, and with a selected date
    of another month than the one shown no day has it. *)
Theorem cellTabIndex_unique (currentMonth : NepaliDate)
    (cd : CalendarData) (err : option string) (selected : option NepaliDate) :
  calendarData LocalTZA currentMonth = Return (cd, err) ->
  (forall i j d1 d2,
     days cd !! i = Some (Some d1) -> days cd !! j = Some (Some d2) ->
     cellTabIndex selected d1 = 0 -> cellTabIndex selected d2 = 0 -> i = j) /\
  (forall i d, selected = None -> days cd !! i = Some (Some d) ->
     (cellTabIndex selected d = 0 <-> day d = 1)) /\
  (forall i d s, selected = Some s ->
     year s <> year currentMonth \/ month s <> month currentMonth ->
     days cd !! i = Some (Some d) -> cellTabIndex selected d = -1).
Proof.
  intros Hcd.
  assert (Hcell : forall i d, days cd !! i = Some (Some d) ->
            year d = year currentMonth /\ month d = month currentMonth /\
            exists k, d = mkNepaliDate (year currentMonth) (month currentMonth) k /\
                      exists c : nat, Z.of_nat i = Z.of_nat c + (k - 1) /\
                        forall i' d' k', days cd !! i' = Some (Some d') ->
                          d' = mkNepaliDate (year currentMonth) (month currentMonth) k' ->
                          Z.of_nat i' = Z.of_nat c + (k' - 1)).
  { intros i d Hi.
    destruct (decide (2000 <= year currentMonth <= 2100 /\ 1 <= month currentMonth <= 12))
      as [[Hy Hm]|Hout].
    - rewrite calendarData_in_table in Hcd by done. injection Hcd as <- <-.
      cbn [days] in *. pose proof Hi as (k & Hk & -> & Hcol)%calendar_cell.
      cbn [year month]. do 2 (split; [done|]). exists k. split; [done|].
      exists (firstColumn (year currentMonth) (month currentMonth)). split; [done|].
      intros i' d' k' (k'' & _ & -> & Hcol')%calendar_cell [= ->]. done.
    - rewrite calendarData_off_table in Hcd by done. injection Hcd as <- <-.
      cbn [days] in Hi. by rewrite lookup_nil in Hi. }
  assert (Hsel : forall d, cellTabIndex selected d = 0 ->
            match selected with
            | Some s => year d = year s /\ month d = month s /\ day d = day s
            | None => day d = 1
            end).
  { intros d. unfold cellTabIndex, isDateSelected. destruct selected as [s|].
    - destruct ((year d =? year s) && (month d =? month s) && (day d =? day s)) eqn:E;
        cbn; [lia|done].
    - cbn. destruct (day d =? 1) eqn:E; [lia|done]. }
  split; [|split].
  - intros i j d1 d2 Hi Hj H1 H2.
    destruct (Hcell i d1 Hi) as (_ & _ & k1 & -> & c & Hc1 & Hall).
    destruct (Hcell j d2 Hj) as (_ & _ & k2 & -> & _).
    pose proof (Hall j _ k2 Hj eq_refl) as Hc2.
    apply Hsel in H1, H2. cbn [day] in *.
    destruct selected; lia.
  - intros i d -> Hi. unfold cellTabIndex. cbn.
    destruct (day d =? 1) eqn:E; split; (done || lia).
  - intros i d s -> Hne Hi. destruct (Hcell i d Hi) as (Hy & Hm & _).
    unfold cellTabIndex, isDateSelected.
    destruct ((year d =? year s) && (month d =? month s) && (day d =? day s)) eqn:E;
      cbn; [lia|done].
Qed.

End PickerProperties.

(** X17 (only valid dates are stored): [handleDateSelect] stores a date only
    if the validator accepts it; for any other date it leaves the state as it
    is and reports one error with code INVALID_NEPALI_DATE. *)
Theorem handleDateSelect_keeps_valid (st : PickerState) (date : NepaliDate) :
  (forall s, selectedDate st = Some s -> isValidNepaliDate s = true) ->
  (forall s, selectedDate (handleDateSelect st date).1 = Some s ->
             isValidNepaliDate s = true) /\
  (isValidNepaliDate date = false ->
   (handleDateSelect st date).1 = st /\
   exists e, (handleDateSelect st date).2 = [onError e] /\ code e = INVALID_NEPALI_DATE).
Proof.
  intros Hst. unfold handleDateSelect.
  destruct (isValidNepaliDate date) eqn:Hv; cbn.
  - split; [|done]. by intros s [= <-].
  - split; [done|]. split; [done|]. eauto.
Qed.

Lemma getDaysInNepaliMonth_cases (y m : Z) :
  (2000 <= y <= 2100 /\ 1 <= m <= 12 /\
   getDaysInNepaliMonth y m = Return (monthLength y m)) \/
  (exists e, getDaysInNepaliMonth y m = Throw e).
Proof.
  destruct (decide (2000 <= y <= 2100 /\ 1 <= m <= 12)) as [[Hy Hm]|Hout].
  - left. by rewrite getDaysInNepaliMonth_in_table.
  - right. unfold getDaysInNepaliMonth.
    destruct (nepaliCalendarData !! y) as [monthData|] eqn:E; [|eauto].
    apply nepaliCalendarData_row in E as (Hy & _).
    destruct ((m <? 1) || (m >? 12)) eqn:Em; [eauto|lia].
Qed.

Lemma focusOnDay_spec (focused : NepaliDate) (newDay : outcome Z) :
  newDay <> Wrong ->
  exists r, focusOnDay focused newDay = Return r /\ selection r = None /\
    forall d', newFocus r = Some d' ->
      isValidNepaliDate d' = true /\ year d' = year focused /\ month d' = month focused.
Proof.
  intros Hw. unfold focusOnDay. destruct newDay as [d|e|]; [| |done].
  - eexists. split; [done|]. split; [done|]. cbn [newFocus].
    destruct (isValidNepaliDate _) eqn:Hv; [|done]. by intros d' [= <-].
  - eexists. split; [done|]. split; [done|]. done.
Qed.

(** X19 (keyboard focus): whatever key is pressed, the calendar's key handler
    does not fail; a date it focuses is valid and lies in the year and month
    of the date focused before, and a date it selects is that date, valid
    and not disabled. *)
Theorem handleKeyDown_safe (minDate maxDate focusedDate : option NepaliDate)
    (key : string) :
  exists r,
    handleKeyDown minDate maxDate focusedDate key = Return r /\
    (forall d', newFocus r = Some d' ->
       isValidNepaliDate d' = true /\
       exists d, focusedDate = Some d /\ year d' = year d /\ month d' = month d) /\
    (forall s, selection r = Some s ->
       focusedDate = Some s /\ isValidNepaliDate s = true /\
       isDateDisabled minDate maxDate s = false).
Proof.
  unfold handleKeyDown. destruct focusedDate as [d|]; [|by eexists].
  assert (Hnav : forall newDay, newDay <> Wrong ->
            exists r, focusOnDay d newDay = Return r /\
              (forall d', newFocus r = Some d' ->
                 isValidNepaliDate d' = true /\
                 exists d0, Some d = Some d0 /\ year d' = year d0 /\ month d' = month d0) /\
              (forall s, selection r = Some s ->
                 Some d = Some s /\ isValidNepaliDate s = true /\
                 isDateDisabled minDate maxDate s = false)).
  { intros newDay Hw. destruct (focusOnDay_spec d newDay Hw) as (r & -> & Hs & Hf).
    exists r. split; [done|]. split.
    - intros d' Hd'. destruct (Hf d' Hd') as (? & ? & ?). eauto.
    - intros s. by rewrite Hs. }
  assert (Hdays : forall f : Z -> Z,
            (maxDay ← getDaysInNepaliMonth (year d) (month d); Return (f maxDay))
            <> (Wrong : outcome Z)).
  { intros f. destruct (getDaysInNepaliMonth_cases (year d) (month d))
      as [(_ & _ & ->)|[e ->]]; done. }
  repeat match goal with
         | |- context [if ?b then _ else _] => destruct b eqn:?
         end; try (apply Hnav; (done || apply Hdays)).
  - eexists. split; [done|]. split; [done|]. cbn [selection].
    intros s [= <-]. split; [done|]. split; [by destruct (isValidNepaliDate d)|].
    destruct (isValidNepaliDate d); [|done].
    by destruct (isDateDisabled minDate maxDate d).
  - by eexists.
  - apply Hnav. destruct (getDaysInNepaliMonth_cases (year d) (month d))
      as [(_ & _ & ->)|[e ->]]; done.
  - by eexists.
Qed.

(** ** The text of a valid date *)

Definition short_width_ok (y : Z) : bool :=
  forallb (fun m =>
    forallb (fun k =>
      (String.length (formatNepaliDate (mkNepaliDate y m k) short) =? 10)%nat)
      (seqZ 1 32))
    (seqZ 1 12).

Lemma short_width_all : forallb short_width_ok (seqZ 2000 101) = true.
Proof. vm_compute. reflexivity. Qed.

(** X20 (text of a valid date): the short form of a valid date has exactly
    10 characters, and its long form carries a name of the month table,
    never the text undefined. *)
Theorem formatNepaliDate_valid (d : NepaliDate) :
  isValidNepaliDate d = true ->
  String.length (formatNepaliDate d short) = 10%nat /\
  exists monthName,
    nepaliMonthNames !! Z.to_nat (month d - 1) = Some monthName /\
    formatNepaliDate d long =
    String.concat "" [Number_toString (day d); " "; monthName; " ";
                      Number_toString (year d)]%string.
Proof.
  intros (Hy & Hm & Hd)%isValidNepaliDate_true.
  pose proof (monthLength_range _ _ Hy Hm). destruct d as [y m k].
  cbn [year month day] in *. split.
  - pose proof short_width_all as Hall. rewrite forallb_forall in Hall.
    assert (Hiy : In y (seqZ 2000 101)) by (apply list_elem_of_In, elem_of_seqZ; lia).
    apply Hall in Hiy. unfold short_width_ok in Hiy. rewrite forallb_forall in Hiy.
    assert (Him : In m (seqZ 1 12)) by (apply list_elem_of_In, elem_of_seqZ; lia).
    apply Hiy in Him. rewrite forallb_forall in Him.
    assert (Hik : In k (seqZ 1 32)) by (apply list_elem_of_In, elem_of_seqZ; lia).
    apply Him in Hik. by apply Nat.eqb_eq.
  - destruct (lookup_lt_is_Some_2 nepaliMonthNames (Z.to_nat (m - 1))) as [name Hn].
    { change (length nepaliMonthNames) with 12%nat. lia. }
    exists name. split; [done|]. unfold formatNepaliDate, js_index.
    destruct (m - 1 <? 0) eqn:E; [lia|]. by rewrite Hn.
Qed.

(** ** Consecutive days *)

Section ConsecutiveDays.

Variable LocalTZA : Z.

Lemma diffDays_next_day (g : Date) :
  diffDays LocalTZA (mkDate (getTime g + msPerDay)) = diffDays LocalTZA g + 1.
Proof.
  rewrite !diffDays_localDay. unfold localDay, LocalTime, Day. cbn [getTime].
  replace (getTime g + msPerDay + LocalTZA)
    with (getTime g + LocalTZA + 1 * msPerDay) by lia.
  rewrite Z.div_add by (unfold msPerDay; lia). lia.
Qed.

Lemma englishToNepali_Return_inv (g : Date) (d : NepaliDate) :
  englishToNepali LocalTZA g = Return d ->
  isValidNepaliDate d = true /\ daysSinceEpoch d = diffDays LocalTZA g.
Proof.
  intros Hg.
  destruct (englishToNepali_cases LocalTZA g)
    as [[_ Hf]|[[_ Hf]|(d' & _ & Hv & Hd & Hto)]].
  - by rewrite Hg in Hf.
  - by rewrite Hg in Hf.
  - rewrite Hg in Hto. by injection Hto as <-.
Qed.

(** X21 (the next day): if a Gregorian day converts to the Nepali date [d],
    the Gregorian day after it converts to the day after [d] in the same
    month, or, on the last day of a month, to the date the next button leads
    to; after the last day of BS 2100 it fails with OUT_OF_RANGE. *)
Theorem englishToNepali_next_day (g : Date) (d : NepaliDate) :
  englishToNepali LocalTZA g = Return d ->
  exists n,
    getDaysInNepaliMonth (year d) (month d) = Return n /\
    (day d < n ->
     englishToNepali LocalTZA (mkDate (getTime g + msPerDay))
     = Return (mkNepaliDate (year d) (month d) (day d + 1))) /\
    (day d = n -> nextDisabled d = false ->
     englishToNepali LocalTZA (mkDate (getTime g + msPerDay))
     = Return (navigateMonth next d)) /\
    (day d = n -> nextDisabled d = true ->
     fails_with OUT_OF_RANGE (englishToNepali LocalTZA (mkDate (getTime g + msPerDay)))
     = true).
Proof.
  intros (Hv & Hd)%englishToNepali_Return_inv.
  pose proof Hv as (Hy & Hm & Hk)%isValidNepaliDate_true.
  pose proof (diffDays_next_day g) as Hnext. rewrite <- Hd in Hnext.
  destruct d as [y m k]. cbn [year month day] in *.
  exists (monthLength y m). split; [by apply getDaysInNepaliMonth_in_table|].
  split; [|split].
  - intros Hlt. apply englishToNepali_in_table.
    + apply isValidNepaliDate_true. cbn [year month day]. lia.
    + rewrite Hnext. unfold daysSinceEpoch. cbn [year month day]. lia.
  - intros -> Hen. unfold nextDisabled in Hen. cbn [year month] in Hen.
    apply englishToNepali_in_table.
    + by apply navigateMonth_isValid.
    + rewrite Hnext, daysSinceEpoch_next_month by lia. done.
  - intros -> Hen. unfold nextDisabled in Hen. cbn [year month] in Hen.
    assert (y = 2100) as -> by lia. assert (m = 12) as -> by lia.
    rewrite englishToNepali_beyond; [done|]. rewrite Hnext.
    by vm_compute.
Qed.

End ConsecutiveDays.

(** ** The component's theorems at concrete dates *)

Lemma navigateMonth_valid_witness :
  isValidNepaliDate (navigateMonth next (mkNepaliDate 2081 12 30)) = true.
Proof.
  apply (navigateMonth_valid next (mkNepaliDate 2081 12 30)). vm_compute. reflexivity.
Defined.

Lemma navigation_disabled_iff_stuck_witness :
  (prevDisabled (mkNepaliDate 2000 1 1) = true
   <-> navigateMonth prev (mkNepaliDate 2000 1 1) = mkNepaliDate 2000 1 1) /\
  (nextDisabled (mkNepaliDate 2000 1 1) = true
   <-> navigateMonth next (mkNepaliDate 2000 1 1) = mkNepaliDate 2000 1 1).
Proof.
  apply (navigation_disabled_iff_stuck (mkNepaliDate 2000 1 1)). vm_compute. reflexivity.
Defined.

Lemma navigateMonth_there_and_back_witness :
  navigateMonth prev (navigateMonth next (mkNepaliDate 2081 12 30))
  = mkNepaliDate 2081 12 1.
Proof.
  refine (proj1 (navigateMonth_there_and_back (mkNepaliDate 2081 12 30) _) _);
    vm_compute; reflexivity.
Defined.



Lemma calendarData_grid_witness :
  exists (n : Z) (blanks : nat),
    getDaysInNepaliMonth 2081 8 = Return n /\
    calendarData 20700000 (mkNepaliDate 2081 8 15)
    = Return (mkCalendarData
                (replicate blanks None
                 ++ ((fun k => Some (mkNepaliDate 2081 8 k)) <$> seqZ 1 n))
                n, None) /\
    (blanks <= 6)%nat /\ (blanks + Z.to_nat n <= 38)%nat /\
    (forall k, 1 <= k <= n -> isValidNepaliDate (mkNepaliDate 2081 8 k) = true).
Proof.
  apply (calendarData_grid 20700000 (mkNepaliDate 2081 8 15)); simpl; lia.
Defined.


Lemma calendarData_error_witness :
  calendarData 20700000 (mkNepaliDate 2081 13 1)
  = Return (mkCalendarData [] 0, Some "Invalid year or month"%string) /\
  fails_with INVALID_NEPALI_DATE (getDaysInNepaliMonth 2081 13) = true.
Proof.
  apply (calendarData_error 20700000 (mkNepaliDate 2081 13 1)). simpl. lia.
Defined.

Lemma handleDateSelect_accepts_grid_witness :
  handleDateSelect (mkPickerState None true) (mkNepaliDate 2081 8 1)
  = (mkPickerState (Some (mkNepaliDate 2081 8 1)) false,
     [onValueChange (Some (mkNepaliDate 2081 8 1))]).
Proof.
  eapply (handleDateSelect_accepts_grid 20700000 (mkNepaliDate 2081 8 15)).
  - vm_compute. reflexivity.
  - apply (list_elem_of_lookup_2 _ 4%nat). vm_compute. reflexivity.
Defined.

Lemma handleDateSelect_keeps_valid_witness :
  (forall s, selectedDate (handleDateSelect (mkPickerState None true)
                                            (mkNepaliDate 2081 8 31)).1 = Some s ->
             isValidNepaliDate s = true) /\
  (isValidNepaliDate (mkNepaliDate 2081 8 31) = false ->
   (handleDateSelect (mkPickerState None true) (mkNepaliDate 2081 8 31)).1
   = mkPickerState None true /\
   exists e, (handleDateSelect (mkPickerState None true) (mkNepaliDate 2081 8 31)).2
             = [onError e] /\ code e = INVALID_NEPALI_DATE).
Proof.
  apply (handleDateSelect_keeps_valid (mkPickerState None true) (mkNepaliDate 2081 8 31)).
  simpl. intros s H. discriminate H.
Defined.

Lemma cellTabIndex_unique_witness :
  exists cd err,
    calendarData 20700000 (mkNepaliDate 2081 8 15) = Return (cd, err) /\
    (forall i d s, Some (mkNepaliDate 2081 7 15) = Some s ->
       year s <> 2081 \/ month s <> 8 ->
       days cd !! i = Some (Some d) ->
       cellTabIndex (Some (mkNepaliDate 2081 7 15)) d = -1).
Proof.
  eexists _, _. split; [vm_compute; reflexivity|].
  refine (proj2 (proj2 (cellTabIndex_unique 20700000 (mkNepaliDate 2081 8 15) _ _
                          (Some (mkNepaliDate 2081 7 15)) _))).
  vm_compute. reflexivity.
Defined.

Lemma formatNepaliDate_valid_witness :
  String.length (formatNepaliDate (mkNepaliDate 2081 8 15) short) = 10%nat /\
  exists monthName,
    nepaliMonthNames !! Z.to_nat (8 - 1) = Some monthName /\
    formatNepaliDate (mkNepaliDate 2081 8 15) long =
    String.concat "" [Number_toString 15; " "; monthName; " ";
                      Number_toString 2081]%string.
Proof.
  apply (formatNepaliDate_valid (mkNepaliDate 2081 8 15)). vm_compute. reflexivity.
Defined.

Lemma englishToNepali_next_day_witness :
  exists n,
    getDaysInNepaliMonth 2081 7 = Return n /\
    (13 < n ->
     englishToNepali 20700000 (mkDate (getTime (Date_ymd 20700000 2024 10 3) + msPerDay))
     = Return (mkNepaliDate 2081 7 (13 + 1))) /\
    (13 = n -> nextDisabled (mkNepaliDate 2081 7 13) = false ->
     englishToNepali 20700000 (mkDate (getTime (Date_ymd 20700000 2024 10 3) + msPerDay))
     = Return (navigateMonth next (mkNepaliDate 2081 7 13))) /\
    (13 = n -> nextDisabled (mkNepaliDate 2081 7 13) = true ->
     fails_with OUT_OF_RANGE
       (englishToNepali 20700000
          (mkDate (getTime (Date_ymd 20700000 2024 10 3) + msPerDay))) = true).
Proof.
  apply (englishToNepali_next_day 20700000 (Date_ymd 20700000 2024 10 3)
           (mkNepaliDate 2081 7 13)).
  vm_compute. reflexivity.
Defined.

(** * The converters on the host's own values: properties *)

Example kathmandu_reference :
  Js.getTime (Js.Date_ymd Js.kathmandu 1943 3 14) = Js.Num (-843197400000).
Proof. vm_compute. reflexivity. Qed.

Example kathmandu_today :
  Js.getTime (Js.Date_ymd Js.kathmandu 2024 10 3) = Js.Num 1730571300000.
Proof. vm_compute. reflexivity. Qed.

(** ** The defects, on the host's values *)

(** C1 (round trip A) fails in Asia/Kathmandu: the valid date BS 2081/8/15
    converts to a [Date] that [englishToNepali] converts to BS 2081/8/14. *)
Theorem roundtrip_nepali_fails_in_kathmandu :
  Js.isValidNepaliDate (Js.mkNepaliDate (Js.Num 2081) (Js.Num 8) (Js.Num 15)) = true /\
  Js.nepaliToEnglish Js.kathmandu
    (Js.mkNepaliDate (Js.Num 2081) (Js.Num 8) (Js.Num 15))
  = Return (Js.mkDate (Js.Num 1733336100000)) /\
  Js.englishToNepali Js.kathmandu (Js.mkDate (Js.Num 1733336100000))
  = Return (Js.mkNepaliDate (Js.Num 2081) (Js.Num 8) (Js.Num 14)).
Proof. by vm_compute. Qed.

(** C3 (round trip B) fails in Asia/Kathmandu: [new Date(2024, 10, 3)],
    3 November 2024, converts to BS 2081/7/12, and that date converts back
    to 2 November 2024. *)
Theorem roundtrip_english_fails_in_kathmandu :
  Js.englishToNepali Js.kathmandu (Js.Date_ymd Js.kathmandu 2024 10 3)
  = Return (Js.mkNepaliDate (Js.Num 2081) (Js.Num 7) (Js.Num 12)) /\
  exists g',
    Js.nepaliToEnglish Js.kathmandu
      (Js.mkNepaliDate (Js.Num 2081) (Js.Num 7) (Js.Num 12)) = Return g' /\
    (Js.getFullYear Js.kathmandu g', Js.getMonth Js.kathmandu g',
     Js.getDate Js.kathmandu g') = (Js.Num 2024, Js.Num 10, Js.Num 2) /\
    (Js.getFullYear Js.kathmandu (Js.Date_ymd Js.kathmandu 2024 10 3),
     Js.getMonth Js.kathmandu (Js.Date_ymd Js.kathmandu 2024 10 3),
     Js.getDate Js.kathmandu (Js.Date_ymd Js.kathmandu 2024 10 3))
    = (Js.Num 2024, Js.Num 10, Js.Num 3).
Proof. split; [by vm_compute|]. exists (Js.mkDate (Js.Num 1730484900000)). by vm_compute. Qed.

(** C8 fails on the Invalid Date: in every zone [englishToNepali] returns
    for it, without an error, a date with day [NaN], which the validator
    rejects. *)
Theorem englishToNepali_invalid_date (zone : Js.Zone) :
  Js.englishToNepali zone (Js.mkDate Js.NaN)
  = Return (Js.mkNepaliDate (Js.Num 2000) (Js.Num 1) Js.NaN) /\
  Js.isValidNepaliDate (Js.mkNepaliDate (Js.Num 2000) (Js.Num 1) Js.NaN) = false.
Proof. split; [reflexivity | by vm_compute]. Qed.

(** ** The two models agree on integers *)

Lemma ofInteger_inj (d1 d2 : NepaliDate) : Js.ofInteger d1 = Js.ofInteger d2 -> d1 = d2.
Proof. destruct d1, d2. by intros [= -> -> ->]. Qed.

Lemma isValidNepaliDate_ofInteger (d : NepaliDate) :
  Js.isValidNepaliDate (Js.ofInteger d) = isValidNepaliDate d.
Proof. by destruct d. Qed.

Section HostProperties.

Variable zone : Js.Zone.

(** The offset the zone had at the reference date. *)
Local Notation "'referenceOffset'" := (Js.localOffset zone Js.referenceLocal).

Lemma reference_time :
  Js.getTime (Js.Date_ymd zone 1943 3 14) = Js.Num (Js.referenceLocal - referenceOffset).
Proof. reflexivity. Qed.

(** On a [Date] with an integer time value, the second model's
    [englishToNepali] is the first one's, with the offset the zone had at the
    reference date. *)
Lemma englishToNepali_number (t : Z) :
  Js.englishToNepali zone (Js.mkDate (Js.Num t))
  = (r ← englishToNepali referenceOffset (mkDate t); Return (Js.ofInteger r)).
Proof.
  rewrite englishToNepali_eq. unfold Js.englishToNepali.
  rewrite reference_time. cbn [Js.getTime Js.sub Js.floor_div Js.ltb Js.add Js.day].
  unfold diffDays. rewrite referenceEnglish_time. cbn [getTime].
  change (1000 * 60 * 60 * 24) with msPerDay.
  change Js.referenceLocal with (-843177600000).
  match goal with |- context [if ?b then _ else _] => destruct b end; [reflexivity|].
  unfold Js.overflow_loop, Js.integer_overflow_loop.
  destruct (overflow_loop 2000 1 _) as [r|[e|m]|]; reflexivity.
Qed.

Lemma setDate_reference_zone (n : Z) :
  Js.regular_at zone Js.referenceLocal ->
  Js.setDate zone (Js.mkDate (Js.getTime (Js.Date_ymd zone 1943 3 14)))
    (Js.add (Js.getDate zone (Js.mkDate (Js.getTime (Js.Date_ymd zone 1943 3 14))))
            (Js.Num n))
  = Js.mkDate (Js.Num (Js.UTC zone (Js.referenceLocal + n * msPerDay))).
Proof.
  intros Hreg. unfold Js.regular_at in Hreg.
  rewrite reference_time. unfold Js.setDate, Js.getDate. cbn [Js.getTime].
  change (Js.referenceLocal - referenceOffset) with (Js.UTC zone Js.referenceLocal).
  rewrite Hreg. change Js.referenceLocal with (-9759 * msPerDay).
  change (YearFromTime (-9759 * msPerDay)) with 1943.
  change (MonthFromTime (-9759 * msPerDay)) with 3.
  change (DateFromTime (-9759 * msPerDay)) with 14.
  change (TimeWithinDay (-9759 * msPerDay)) with 0.
  cbn [Js.add]. rewrite MakeDay_date. change (MakeDay 1943 3 1) with (-9772).
  do 3 f_equal. unfold MakeDate, msPerDay. lia.
Qed.

(** In a zone that did not skip the reference midnight, a valid date
    converts to the instant the zone gives the local midnight
    [daysSinceEpoch d] days after the reference date. *)
Lemma nepaliToEnglish_zone (d : NepaliDate) :
  isValidNepaliDate d = true -> Js.regular_at zone Js.referenceLocal ->
  Js.nepaliToEnglish zone (Js.ofInteger d)
  = Return (Js.mkDate
              (Js.Num (Js.UTC zone (Js.referenceLocal + daysSinceEpoch d * msPerDay)))).
Proof.
  intros Hv Hreg. pose proof Hv as (Hy & Hm & Hd)%isValidNepaliDate_true.
  unfold Js.nepaliToEnglish. rewrite isValidNepaliDate_ofInteger, Hv.
  destruct d as [y m k]. cbn [year month day] in *.
  cbn [negb Js.ofInteger Js.integerFields year month day Js.year Js.month Js.day
       Js.iterations Js.table_lookup Js.sub Js.add].
  rewrite completeYears_spec by lia.
  destruct (nepaliCalendarData_lookup y Hy) as [targetYearData E].
  cbn [mbind outcome_bind]. rewrite E.
  rewrite (completeMonths_spec y) by (done || lia).
  cbn [mbind outcome_bind catch_rewrap]. rewrite setDate_reference_zone by done.
  unfold daysSinceEpoch. cbn [year month day]. by rewrite Z.add_0_l.
Qed.

(** The whole days the code counts from the reference date to the instant
    [t]: the floor of the millisecond difference over a day's length. *)
Local Notation "'elapsedDays' t" :=
  ((t - (Js.referenceLocal - referenceOffset)) / msPerDay) (at level 10, t at level 9).

Lemma diffDays_elapsedDays (t : Z) : diffDays referenceOffset (mkDate t) = elapsedDays t.
Proof. unfold diffDays. by rewrite referenceEnglish_time. Qed.

Lemma englishToNepali_number_inv (t : Z) (d : NepaliDate) :
  Js.englishToNepali zone (Js.mkDate (Js.Num t)) = Return (Js.ofInteger d) ->
  isValidNepaliDate d = true /\ daysSinceEpoch d = elapsedDays t.
Proof.
  rewrite englishToNepali_number, <- diffDays_elapsedDays.
  destruct (englishToNepali_cases referenceOffset (mkDate t))
    as [[_ H]|[[_ H]|(d' & _ & Hv & Hd & E)]].
  - by destruct (englishToNepali _ _) as [?|[[]|]|].
  - by destruct (englishToNepali _ _) as [?|[[]|]|].
  - rewrite E. cbn [mbind outcome_bind]. intros H.
    assert (d' = d) as <- by (apply ofInteger_inj; congruence). done.
Qed.

(** X2 (englishToNepali on every Date): on the Invalid Date the conversion
    throws nothing and returns year 2000, month 1 and a day that is not a
    number, which the validator rejects.  On a Date with time value [t] it
    counts the whole days from the reference instant, local midnight of 14
    April 1943, as the floor of the millisecond difference over 86400000:
    for a count from 0 to 36893 it returns the valid date that many days
    after BS 2000/1/1, and for every other count it throws OUT_OF_RANGE.
    It never throws INVALID_ENGLISH_DATE. *)
Theorem englishToNepali_every_date (g : Js.Date) :
  (Js.getTime g = Js.NaN ->
   Js.englishToNepali zone g
   = Return (Js.mkNepaliDate (Js.Num 2000) (Js.Num 1) Js.NaN) /\
   Js.isValidNepaliDate (Js.mkNepaliDate (Js.Num 2000) (Js.Num 1) Js.NaN) = false) /\
  (forall t : Z, Js.getTime g = Js.Num t ->
     (0 <= elapsedDays t < totalTableDays ->
      exists d : NepaliDate,
        isValidNepaliDate d = true /\ daysSinceEpoch d = elapsedDays t /\
        Js.englishToNepali zone g = Return (Js.ofInteger d)) /\
     (~ 0 <= elapsedDays t < totalTableDays ->
      fails_with OUT_OF_RANGE (Js.englishToNepali zone g) = true)) /\
  fails_with INVALID_ENGLISH_DATE (Js.englishToNepali zone g) = false.
Proof.
  destruct g as [[t|]].
  - cbn [Js.getTime]. split; [done|]. rewrite englishToNepali_number.
    destruct (englishToNepali_cases referenceOffset (mkDate t))
      as [[Hn H]|[[Hn H]|(d & Hr & Hv & Hd & E)]];
      rewrite diffDays_elapsedDays in *.
    + split.
      * intros ? [= <-]. split; [lia|]. intros _.
        by destruct (englishToNepali _ _) as [?|[[]|]|].
      * destruct (englishToNepali _ _) as [?|[e|]|]; simpl in *; try done.
        by destruct (code e).
    + split.
      * intros ? [= <-]. split; [lia|]. intros _.
        by destruct (englishToNepali _ _) as [?|[[]|]|].
      * destruct (englishToNepali _ _) as [?|[e|]|]; simpl in *; try done.
        by destruct (code e).
    + rewrite E. cbn [mbind outcome_bind]. split; [|done].
      intros ? [= <-]. split; [|lia]. intros _. by exists d.
  - cbn [Js.getTime]. split; [|split; [done|]]; [intros _; split|]; by vm_compute.
Qed.

(** X22 (order): the conversion is monotone in the time value.  Of two
    instants that both convert, the later one never gives the earlier
    Nepali date, and a strictly later Nepali date comes from a strictly
    later instant. *)
Theorem englishToNepali_time_order (t1 t2 : Z) (d1 d2 : NepaliDate) :
  Js.englishToNepali zone (Js.mkDate (Js.Num t1)) = Return (Js.ofInteger d1) ->
  Js.englishToNepali zone (Js.mkDate (Js.Num t2)) = Return (Js.ofInteger d2) ->
  (t1 <= t2 -> d1 = d2 \/ precedes d1 d2) /\ (precedes d1 d2 -> t1 < t2).
Proof.
  intros [Hv1 H1]%englishToNepali_number_inv [Hv2 H2]%englishToNepali_number_inv.
  split.
  - intros Hle.
    assert (daysSinceEpoch d1 <= daysSinceEpoch d2) as Hd.
    { rewrite H1, H2. apply Z.div_le_mono; [done|lia]. }
    apply daysSinceEpoch_le in Hd; [|done..].
    destruct (precedes_trichotomy d1 d2) as [?|[?|?]]; tauto.
  - intros Hlt. pose proof (daysSinceEpoch_lt d1 d2 Hv1 Hv2 Hlt) as Hd.
    rewrite H1, H2 in Hd. destruct (Z_lt_le_dec t1 t2) as [|Hge]; [done|].
    assert (elapsedDays t2 <= elapsedDays t1); [|lia].
    apply Z.div_le_mono; [done|lia].
Qed.

(** X23 (round trip A over the zones): in a zone that has the reference
    midnight on its clock, a valid Nepali date converts to a Date, and
    converting that Date back gives the same Nepali date exactly when the
    zone's offset at the Date's local midnight is at most its offset at the
    reference midnight, and less than a day below it.  So the round trip
    holds in a zone of one offset and fails wherever the offset has grown
    since 1943. *)
Theorem roundtrip_nepali_zone (d : NepaliDate) :
  isValidNepaliDate d = true -> Js.regular_at zone Js.referenceLocal ->
  exists g : Js.Date,
    Js.nepaliToEnglish zone (Js.ofInteger d) = Return g /\
    (Js.englishToNepali zone g = Return (Js.ofInteger d) <->
     0 <= referenceOffset
          - Js.localOffset zone (Js.referenceLocal + daysSinceEpoch d * msPerDay)
       < msPerDay).
Proof.
  intros Hv Hreg. eexists. split; [by apply nepaliToEnglish_zone|].
  set (n := daysSinceEpoch d).
  set (offset := Js.localOffset zone (Js.referenceLocal + n * msPerDay)).
  assert (elapsedDays (Js.UTC zone (Js.referenceLocal + n * msPerDay))
          = n + (referenceOffset - offset) / msPerDay) as Hn.
  { unfold Js.UTC. fold offset. rewrite <- Z.div_add_l by done. f_equal. lia. }
  split.
  - intros [_ H]%englishToNepali_number_inv. rewrite Hn in H. fold n in H.
    assert ((referenceOffset - offset) / msPerDay = 0) as H0 by lia.
    apply Z.div_small_iff in H0; [|done]. unfold msPerDay in *. lia.
  - intros Hoff. rewrite englishToNepali_number.
    rewrite (englishToNepali_in_table _ _ d); [done..|].
    rewrite diffDays_elapsedDays, Hn, Z.div_small by done. fold n. lia.
Qed.

End HostProperties.

(** ** The theorems at concrete instants *)

(** In Asia/Kathmandu, 00:05 and 00:30 of 3 November 2024 convert to two
    different Nepali dates, the earlier instant to the earlier one. *)
Lemma englishToNepali_time_order_witness :
  precedes (mkNepaliDate 2081 7 12) (mkNepaliDate 2081 7 13) /\
  Js.LocalTime Js.kathmandu 1730571600000 = MakeDate (MakeDay 2024 10 3) 300000 /\
  Js.LocalTime Js.kathmandu 1730573100000 = MakeDate (MakeDay 2024 10 3) 1800000.
Proof.
  split; [|by vm_compute].
  destruct (englishToNepali_time_order Js.kathmandu 1730571600000 1730573100000
              (mkNepaliDate 2081 7 12) (mkNepaliDate 2081 7 13)) as [H _];
    [by vm_compute..|].
  destruct H as [H|H]; [lia|discriminate H|exact H].
Defined.

(** In Asia/Kathmandu the round trip of BS 2081/8/15 does not give the date
    back: the offset has grown by 15 minutes since 1943. *)
Lemma roundtrip_nepali_zone_witness :
  exists g : Js.Date,
    Js.nepaliToEnglish Js.kathmandu (Js.ofInteger (mkNepaliDate 2081 8 15)) = Return g /\
    Js.englishToNepali Js.kathmandu g
    <> Return (Js.ofInteger (mkNepaliDate 2081 8 15)).
Proof.
  destruct (roundtrip_nepali_zone Js.kathmandu (mkNepaliDate 2081 8 15))
    as (g & Hg & Hiff); [by vm_compute..|].
  exists g. split; [exact Hg|]. intros H. apply Hiff in H. vm_compute in H.
  destruct H as [H _]. by apply H.
Defined.
